(** * Simulator: the case-ingestion script and the navbar probe

    A shallow embedding of

    - [SimulatorBackend/scripts/generateCases.py]
      ([load_cases_from_json], [push_cases_to_mongodb] and the [__main__]
      block), and
    - [jules-scratch/verification/verify_navbar.py] ([run] and the module
      body),

    as computations in a state-and-exception monad.  The state holds what
    the scripts can be observed to do: the lines written to standard output,
    the calls made into the libraries ([open], [json], [pymongo],
    [playwright]) and the state of the outside world those libraries act on.
    The libraries themselves are not part of the repository: they are an
    interface ([library]) every theorem quantifies over. *)

From Stdlib Require Import ZArith List String Ascii DecimalString Lia Bool.
Import ListNotations.
Open Scope string_scope.
Set Warnings "-register-all".

(** ** Python values *)

(** The values [json.load] can produce.  A [str] is a [string] with one
    [ascii] per character; a [float] is kept as the 64 bits of its IEEE 754
    representation; a [dict] is its list of items in insertion order. *)
Inductive pyval : Type :=
| PyNone
| PyBool (b : bool)
| PyInt (z : Z)
| PyFloat (bits : Z)
| PyStr (s : string)
| PyList (items : list pyval)
| PyDict (items : list (string * pyval)).

(** ** Exceptions *)

(** The classes the scripts can meet.  All but [KeyboardInterrupt] derive
    from [Exception]; [KeyboardInterrupt] derives from [BaseException]
    only, so an [except Exception] clause lets it through. *)
Inductive exn_class : Type :=
| FileNotFoundError
| UnicodeDecodeError
| JSONDecodeError
| TypeError
| OtherException (name : string)
| KeyboardInterrupt.

Record exn : Type := mk_exn {
  exn_cls : exn_class;
  exn_str : string          (* str(e), what an f-string prints for {e} *)
}.

Definition isinstance_Exception (e : exn) : bool :=
  match exn_cls e with
  | KeyboardInterrupt => false
  | _ => true
  end.

Inductive outcome (A : Type) : Type :=
| Returned (a : A)
| Raised (e : exn).
Arguments Returned {A} a.
Arguments Raised {A} e.

(** How the interpreter ends when the module body ends with [r]: an
    exception that reaches the top level is reported with a traceback and a
    status other than 0. *)
Inductive status : Type := ExitZero | ExitNonZero.

Definition exit_status {A : Type} (r : outcome A) : status :=
  match r with
  | Returned _ => ExitZero
  | Raised _ => ExitNonZero
  end.

(** ** Built-ins *)

(** [bool(v)], the test of an [if v:]. *)
Definition truthy (v : pyval) : bool :=
  match v with
  | PyNone => false
  | PyBool b => b
  | PyInt z => negb (Z.eqb z 0)
  | PyFloat bits => negb (Z.eqb (Z.land bits (Z.ones 63)) 0)  (* +0.0, -0.0 *)
  | PyStr s => negb (Nat.eqb (String.length s) 0)
  | PyList items => negb (Nat.eqb (List.length items) 0)
  | PyDict items => negb (Nat.eqb (List.length items) 0)
  end.

Definition type_name (v : pyval) : string :=
  match v with
  | PyNone => "NoneType"
  | PyBool _ => "bool"
  | PyInt _ => "int"
  | PyFloat _ => "float"
  | PyStr _ => "str"
  | PyList _ => "list"
  | PyDict _ => "dict"
  end.

(** The number of keys of a [dict]. *)
Definition dict_len (items : list (string * pyval)) : nat :=
  List.length (nodup string_dec (map fst items)).

(** [len(v)]: defined on [str], [list] and [dict]; a [TypeError] on the
    other values. *)
Definition py_len (v : pyval) : outcome nat :=
  match v with
  | PyStr s => Returned (String.length s)
  | PyList items => Returned (List.length items)
  | PyDict items => Returned (dict_len items)
  | _ => Raised (mk_exn TypeError
                   ("object of type '" ++ type_name v ++ "' has no len()"))
  end.

(** [str(n)] for a non-negative [int], as an f-string renders [{n}]. *)
Definition str_nat (n : nat) : string :=
  NilZero.string_of_uint (Nat.to_uint n).

(** ** Calls into the libraries *)

(** File objects, clients, databases, collections, browsers and pages are
    library objects; the scripts only pass them around. *)
Definition handle : Type := nat.

Record InsertManyResult : Type := mk_InsertManyResult {
  inserted_ids : list pyval;
  acknowledged : bool
}.

Inductive call : Type :=
| COpen (file_path : string)
| CJsonLoad (file : handle)
| CFileClose (file : handle)
| CMongoClient (mongo_uri : string)
| CClientGetitem (client : handle) (db_name : string)
| CDbGetitem (db : handle) (collection_name : string)
| CInsertMany (collection : handle) (documents : pyval)
| CPlaywrightStart
| CPlaywrightStop (playwright : handle)
| CLaunch (playwright : handle)
| CNewPage (browser : handle)
| CGoto (page : handle) (url : string)
| CScreenshot (page : handle) (path : string)
| CBrowserClose (browser : handle).

Definition is_insert_many (c : call) : bool :=
  match c with CInsertMany _ _ => true | _ => false end.

Definition is_browser_close (c : call) : bool :=
  match c with CBrowserClose _ => true | _ => false end.

(** What each library call does to the world [W] it acts on, and whether it
    returns or raises. *)
Record library (W : Type) : Type := mk_library {
  (* open(file_path, 'r', encoding='utf-8') and the file object *)
  lib_open : string -> W -> outcome handle * W;
  lib_json_load : handle -> W -> outcome pyval * W;
  lib_file_close : handle -> W -> outcome unit * W;
  (* pymongo *)
  lib_MongoClient : string -> W -> outcome handle * W;
  lib_client_getitem : handle -> string -> W -> outcome handle * W;
  lib_db_getitem : handle -> string -> W -> outcome handle * W;
  lib_insert_many : handle -> pyval -> W -> outcome InsertManyResult * W;
  (* playwright.sync_api *)
  lib_playwright_start : W -> outcome handle * W;
  lib_playwright_stop : handle -> W -> outcome unit * W;
  lib_launch : handle -> W -> outcome handle * W;
  lib_new_page : handle -> W -> outcome handle * W;
  lib_goto : handle -> string -> W -> outcome unit * W;
  lib_screenshot : handle -> string -> W -> outcome unit * W;
  lib_browser_close : handle -> W -> outcome unit * W
}.
Arguments lib_open {W}.
Arguments lib_json_load {W}.
Arguments lib_file_close {W}.
Arguments lib_MongoClient {W}.
Arguments lib_client_getitem {W}.
Arguments lib_db_getitem {W}.
Arguments lib_insert_many {W}.
Arguments lib_playwright_start {W}.
Arguments lib_playwright_stop {W}.
Arguments lib_launch {W}.
Arguments lib_new_page {W}.
Arguments lib_goto {W}.
Arguments lib_screenshot {W}.
Arguments lib_browser_close {W}.

(** ** The monad *)

Record state (W : Type) : Type := mk_state {
  stdout : list string;     (* the lines printed so far, oldest first *)
  calls : list call;        (* the library calls made so far, oldest first *)
  ext : W                   (* the world outside the process *)
}.
Arguments mk_state {W}.
Arguments stdout {W}.
Arguments calls {W}.
Arguments ext {W}.

Definition M (W A : Type) : Type := state W -> outcome A * state W.

Definition ret {W A : Type} (a : A) : M W A :=
  fun s => (Returned a, s).

Definition bind {W A B : Type} (m : M W A) (k : A -> M W B) : M W B :=
  fun s =>
    match m s with
    | (Returned a, s1) => k a s1
    | (Raised e, s1) => (Raised e, s1)
    end.

Notation "x <- m ;; k" := (bind m (fun x => k))
  (at level 61, m at next level, right associativity).
Notation "m ;;; k" := (bind m (fun _ => k))
  (at level 61, right associativity).

(** [try: body / except Exception as e: handler e]. *)
Definition try_except {W A : Type} (body : M W A) (handler : exn -> M W A)
  : M W A :=
  fun s =>
    match body s with
    | (Returned a, s1) => (Returned a, s1)
    | (Raised e, s1) =>
        if isinstance_Exception e then handler e s1 else (Raised e, s1)
    end.

(** [try: body / finally: cleanup].  The cleanup runs however the body
    ends; an exception of the cleanup replaces the body's outcome. *)
Definition try_finally {W A : Type} (body : M W A) (cleanup : M W unit)
  : M W A :=
  fun s =>
    match body s with
    | (r, s1) =>
        match cleanup s1 with
        | (Returned _, s2) => (r, s2)
        | (Raised e, s2) => (Raised e, s2)
        end
    end.

(** [with enter as x: body x], for a context manager whose [__exit__]
    releases [x] and does not suppress exceptions. *)
Definition with_ {W A : Type} (enter : M W handle)
  (release : handle -> M W unit) (body : handle -> M W A) : M W A :=
  x <- enter ;; try_finally (body x) (release x).

(** [print(line)]. *)
Definition print {W : Type} (line : string) : M W unit :=
  fun s => (Returned tt, mk_state (stdout s ++ [line]) (calls s) (ext s)).

(** A library call: recorded, then left to the library. *)
Definition invoke {W A : Type} (c : call) (op : W -> outcome A * W) : M W A :=
  fun s =>
    match op (ext s) with
    | (r, w) => (r, mk_state (stdout s) (calls s ++ [c]) w)
    end.

(** An expression of the language itself that may raise, such as [len(v)]. *)
Definition eval {W A : Type} (r : outcome A) : M W A :=
  fun s => (r, s).

(** ** generateCases.py *)

Section GenerateCases.
Context {W : Type} (L : library W).

Definition py_open (file_path : string) : M W handle :=
  invoke (COpen file_path) (lib_open L file_path).

Definition json_load (file : handle) : M W pyval :=
  invoke (CJsonLoad file) (lib_json_load L file).

Definition file_close (file : handle) : M W unit :=
  invoke (CFileClose file) (lib_file_close L file).

Definition MongoClient (mongo_uri : string) : M W handle :=
  invoke (CMongoClient mongo_uri) (lib_MongoClient L mongo_uri).

Definition client_getitem (client : handle) (db_name : string) : M W handle :=
  invoke (CClientGetitem client db_name) (lib_client_getitem L client db_name).

Definition db_getitem (db : handle) (collection_name : string) : M W handle :=
  invoke (CDbGetitem db collection_name) (lib_db_getitem L db collection_name).

Definition insert_many (collection : handle) (documents : pyval)
  : M W InsertManyResult :=
  invoke (CInsertMany collection documents)
         (lib_insert_many L collection documents).

(** Lines 7 to 10: the body of the [try] of [load_cases_from_json]. *)
Definition load_cases_body (file_path : string) : M W pyval :=
  cases <- with_ (py_open file_path) file_close (fun file => json_load file) ;;
  n <- eval (py_len cases) ;;
  print ("Successfully loaded " ++ str_nat n ++ " cases from "
         ++ file_path ++ ".") ;;;
  ret cases.

Definition load_cases_from_json (file_path : string) : M W pyval :=
  try_except
    (load_cases_body file_path)
    (fun e =>
       print ("Error loading JSON file: " ++ exn_str e) ;;;
       ret PyNone).

(** Lines 18 to 28: the body of the [try] of [push_cases_to_mongodb]. *)
Definition push_cases_body (cases : pyval)
  (mongo_uri db_name collection_name : string) : M W pyval :=
  client <- MongoClient mongo_uri ;;
  print "Connected to MongoDB successfully." ;;;
  db <- client_getitem client db_name ;;
  collection <- db_getitem db collection_name ;;
  result <- insert_many collection cases ;;
  print ("Successfully inserted "
         ++ str_nat (List.length (inserted_ids result))
         ++ " cases into MongoDB.") ;;;
  ret PyNone.

Definition push_cases_to_mongodb (cases : pyval)
  (mongo_uri db_name collection_name : string) : M W pyval :=
  try_except
    (push_cases_body cases mongo_uri db_name collection_name)
    (fun e =>
       print ("Error inserting cases into MongoDB: " ++ exn_str e) ;;;
       ret PyNone).

Definition MONGO_URI : string := "mongodb://localhost:27017/simulator".
Definition DB_NAME : string := "test".
Definition COLLECTION_NAME : string := "cases".
Definition JSON_FILE_PATH : string := "..\cases\case_100.json".

(** The [if __name__ == "__main__":] block. *)
Definition main : M W unit :=
  cases <- load_cases_from_json JSON_FILE_PATH ;;
  if truthy cases
  then push_cases_to_mongodb cases MONGO_URI DB_NAME COLLECTION_NAME ;;; ret tt
  else ret tt.

End GenerateCases.

(** ** verify_navbar.py *)

Section VerifyNavbar.
Context {W : Type} (L : library W).

Definition sync_playwright_enter : M W handle :=
  invoke CPlaywrightStart (lib_playwright_start L).

Definition sync_playwright_exit (playwright : handle) : M W unit :=
  invoke (CPlaywrightStop playwright) (lib_playwright_stop L playwright).

Definition chromium_launch (playwright : handle) : M W handle :=
  invoke (CLaunch playwright) (lib_launch L playwright).

Definition new_page (browser : handle) : M W handle :=
  invoke (CNewPage browser) (lib_new_page L browser).

Definition page_goto (page : handle) (url : string) : M W unit :=
  invoke (CGoto page url) (lib_goto L page url).

Definition page_screenshot (page : handle) (path : string) : M W unit :=
  invoke (CScreenshot page path) (lib_screenshot L page path).

Definition browser_close (browser : handle) : M W unit :=
  invoke (CBrowserClose browser) (lib_browser_close L browser).

Definition NAVBAR_URL : string := "http://localhost:5173/".
Definition SCREENSHOT_PATH : string :=
  "jules-scratch/verification/verification.png".

Definition run (playwright : handle) : M W pyval :=
  browser <- chromium_launch playwright ;;
  page <- new_page browser ;;
  try_finally
    (page_goto page NAVBAR_URL ;;;
     page_screenshot page SCREENSHOT_PATH)
    (browser_close browser) ;;;
  ret PyNone.

(** The module body: [with sync_playwright() as playwright: run(playwright)]. *)
Definition verify_navbar : M W pyval :=
  with_ sync_playwright_enter sync_playwright_exit run.

End VerifyNavbar.

(** ** What is asked of the libraries *)

(** A library call whose exceptions are all instances of [Exception]: the
    errors of a missing file, of a decoder, of a driver, of a browser. *)
Definition only_Exception {W A : Type} (op : W -> outcome A * W) : Prop :=
  forall w e w', op w = (Raised e, w') -> isinstance_Exception e = true.

Definition file_library_ok {W : Type} (L : library W) : Prop :=
  (forall p, only_Exception (lib_open L p)) /\
  (forall f, only_Exception (lib_json_load L f)) /\
  (forall f, only_Exception (lib_file_close L f)).

Definition mongo_library_ok {W : Type} (L : library W) : Prop :=
  (forall u, only_Exception (lib_MongoClient L u)) /\
  (forall c n, only_Exception (lib_client_getitem L c n)) /\
  (forall d n, only_Exception (lib_db_getitem L d n)) /\
  (forall k v, only_Exception (lib_insert_many L k v)).

(** The same, of a computation. *)
Definition raises_only_Exception {W A : Type} (m : M W A) : Prop :=
  forall s e s', m s = (Raised e, s') -> isinstance_Exception e = true.

(** A computation that returns from every state. *)
Definition total {W A : Type} (m : M W A) : Prop :=
  forall s, exists a s', m s = (Returned a, s').

(** The state [s] after one more printed line. *)
Definition printed {W : Type} (line : string) (s : state W) : state W :=
  mk_state (stdout s ++ [line]) (calls s) (ext s).

(** The state [s] once the file has been opened as [file], read and closed,
    the world being [w] by then. *)
Definition after_read {W : Type} (file_path : string) (file : handle) (w : W)
  (s : state W) : state W :=
  mk_state (stdout s)
           (calls s ++ [COpen file_path; CJsonLoad file; CFileClose file]) w.

(** The publisher was entered from state [s1] on the way to [s2]: its first
    statement, the [MongoClient(mongo_uri)] call, is the next call made. *)
Definition publisher_invoked {W : Type} (s1 s2 : state W) : Prop :=
  exists rest, calls s2 = (calls s1 ++ CMongoClient MONGO_URI :: rest)%list.

(** ** A simulated world

    A disk, a document store and a web site to run the scripts on. *)
Module Sim.

(** What is in a file, as [json.load] sees it. *)
Inductive content : Type :=
| Parses (v : pyval)
| Malformed (msg : string)       (* not JSON *)
| Undecodable (msg : string).    (* not UTF-8 *)

Record world : Type := mk_world {
  disk : list (string * content);
  (* the documents of the collection, or [None] when no server answers *)
  store : option (list pyval);
  next_id : Z;
  (* whether a page opens in the browser, and whether the site answers *)
  pages_open : bool;
  site_up : bool
}.

Fixpoint find_file (file_path : string) (d : list (string * content))
  (n : nat) : option nat :=
  match d with
  | [] => None
  | (p, _) :: d' =>
      if String.eqb p file_path then Some n else find_file file_path d' (S n)
  end.

Definition sim_open (file_path : string) (w : world) : outcome handle * world :=
  match find_file file_path (disk w) 0 with
  | Some n => (Returned n, w)
  | None =>
      (Raised (mk_exn FileNotFoundError
                 ("[Errno 2] No such file or directory: '" ++ file_path ++ "'")),
       w)
  end.

Definition sim_json_load (file : handle) (w : world) : outcome pyval * world :=
  match nth_error (disk w) file with
  | Some (_, Parses v) => (Returned v, w)
  | Some (_, Malformed msg) => (Raised (mk_exn JSONDecodeError msg), w)
  | Some (_, Undecodable msg) => (Raised (mk_exn UnicodeDecodeError msg), w)
  | None => (Raised (mk_exn (OtherException "ValueError")
                       "I/O operation on closed file."), w)
  end.

Fixpoint fresh_ids (n : nat) (from : Z) : list pyval :=
  match n with
  | O => []
  | S n' => PyInt from :: fresh_ids n' (from + 1)
  end.

Definition sim_insert_many (collection : handle) (documents : pyval)
  (w : world) : outcome InsertManyResult * world :=
  match store w with
  | None =>
      (Raised (mk_exn (OtherException "ServerSelectionTimeoutError")
                 "localhost:27017: [Errno 111] Connection refused"), w)
  | Some old =>
      match documents with
      | PyList (d :: ds) =>
          let n := List.length (d :: ds) in
          (Returned (mk_InsertManyResult (fresh_ids n (next_id w)) true),
           mk_world (disk w) (Some (old ++ d :: ds)%list)
                    (next_id w + Z.of_nat n) (pages_open w) (site_up w))
      | _ =>
          (Raised (mk_exn TypeError "documents must be a non-empty list"), w)
      end
  end.

Definition sim_new_page (browser : handle) (w : world) : outcome handle * world :=
  if pages_open w then (Returned (S browser), w)
  else (Raised (mk_exn (OtherException "Error")
                  "Browser.new_page: Target page, context or browser has been closed"),
        w).

Definition sim_goto (page : handle) (url : string) (w : world)
  : outcome unit * world :=
  if site_up w then (Returned tt, w)
  else (Raised (mk_exn (OtherException "Error")
                  ("Page.goto: net::ERR_CONNECTION_REFUSED at " ++ url)), w).

Definition lib : library world :=
  mk_library world
    sim_open
    sim_json_load
    (fun _ w => (Returned tt, w))
    (fun _ w => (Returned 1%nat, w))
    (fun c _ w => (Returned (S c), w))
    (fun d _ w => (Returned (S d), w))
    sim_insert_many
    (fun w => (Returned 10%nat, w))
    (fun _ w => (Returned tt, w))
    (fun p w => (Returned (S p), w))
    sim_new_page
    sim_goto
    (fun _ _ w => (Returned tt, w))
    (fun _ w => (Returned tt, w)).

Definition case_1 : pyval :=
  PyDict [("caseId", PyStr "VP-001"); ("age", PyInt 54)].
Definition case_2 : pyval :=
  PyDict [("caseId", PyStr "VP-002"); ("age", PyInt 31)].

(** A world whose case file holds [c], with an empty store that answers. *)
Definition with_file (c : content) : world :=
  mk_world [(JSON_FILE_PATH, c)] (Some []) 1 true true.

Definition no_file : world := mk_world [] (Some []) 1 true true.

Definition no_server (c : content) : world :=
  mk_world [(JSON_FILE_PATH, c)] None 1 true true.

Definition no_pages : world := mk_world [] None 1 false true.

Definition no_site : world := mk_world [] None 1 true false.

Definition start (w : world) : state world := mk_state [] [] w.

End Sim.

(** Libraries that fail where [Sim.lib] does not: an interrupt from the
    keyboard while the file is opened or while the records are inserted, and
    a browser that cannot be closed. *)
Module SimFaults.

Definition interrupt : exn := mk_exn KeyboardInterrupt "".

Definition interrupted_open : library Sim.world :=
  mk_library Sim.world
    (fun _ w => (Raised interrupt, w))
    (lib_json_load Sim.lib) (lib_file_close Sim.lib)
    (lib_MongoClient Sim.lib) (lib_client_getitem Sim.lib)
    (lib_db_getitem Sim.lib) (lib_insert_many Sim.lib)
    (lib_playwright_start Sim.lib) (lib_playwright_stop Sim.lib)
    (lib_launch Sim.lib) (lib_new_page Sim.lib) (lib_goto Sim.lib)
    (lib_screenshot Sim.lib) (lib_browser_close Sim.lib).

Definition interrupted_insert : library Sim.world :=
  mk_library Sim.world
    (lib_open Sim.lib) (lib_json_load Sim.lib) (lib_file_close Sim.lib)
    (lib_MongoClient Sim.lib) (lib_client_getitem Sim.lib)
    (lib_db_getitem Sim.lib)
    (fun _ _ w => (Raised interrupt, w))
    (lib_playwright_start Sim.lib) (lib_playwright_stop Sim.lib)
    (lib_launch Sim.lib) (lib_new_page Sim.lib) (lib_goto Sim.lib)
    (lib_screenshot Sim.lib) (lib_browser_close Sim.lib).

Definition close_error : exn :=
  mk_exn (OtherException "Error")
    "Browser.close: Connection closed while reading from the driver".

Definition failing_close : library Sim.world :=
  mk_library Sim.world
    (lib_open Sim.lib) (lib_json_load Sim.lib) (lib_file_close Sim.lib)
    (lib_MongoClient Sim.lib) (lib_client_getitem Sim.lib)
    (lib_db_getitem Sim.lib) (lib_insert_many Sim.lib)
    (lib_playwright_start Sim.lib) (lib_playwright_stop Sim.lib)
    (lib_launch Sim.lib) (lib_new_page Sim.lib) (lib_goto Sim.lib)
    (lib_screenshot Sim.lib)
    (fun _ w => (Raised close_error, w)).

End SimFaults.

(** * Properties *)

(** ** The monad *)

Section MonadFacts.
Context {W : Type}.

Lemma bind_returned {A B : Type} (m : M W A) (k : A -> M W B) s a s1 :
  m s = (Returned a, s1) -> bind m k s = k a s1.
Proof. intros H. unfold bind. now rewrite H. Qed.

Lemma bind_raised {A B : Type} (m : M W A) (k : A -> M W B) s e s1 :
  m s = (Raised e, s1) -> bind m k s = (Raised e, s1).
Proof. intros H. unfold bind. now rewrite H. Qed.

Lemma try_except_returned {A : Type} (body : M W A) handler s a s1 :
  body s = (Returned a, s1) -> try_except body handler s = (Returned a, s1).
Proof. intros H. unfold try_except. now rewrite H. Qed.

Lemma try_except_caught {A : Type} (body : M W A) handler s e s1 :
  body s = (Raised e, s1) ->
  isinstance_Exception e = true ->
  try_except body handler s = handler e s1.
Proof. intros H He. unfold try_except. now rewrite H, He. Qed.

Lemma try_except_passed {A : Type} (body : M W A) handler s e s1 :
  body s = (Raised e, s1) ->
  isinstance_Exception e = false ->
  try_except body handler s = (Raised e, s1).
Proof. intros H He. unfold try_except. now rewrite H, He. Qed.

Lemma invoke_eq {A : Type} (c : call) (op : W -> outcome A * W) s r w :
  op (ext s) = (r, w) ->
  invoke c op s = (r, mk_state (stdout s) (calls s ++ [c]) w).
Proof. intros H. unfold invoke. now rewrite H. Qed.

Lemma ret_only_Exception {A : Type} (a : A) :
  raises_only_Exception (@ret W A a).
Proof. intros s e s' H. discriminate H. Qed.

Lemma print_only_Exception (line : string) :
  raises_only_Exception (@print W line).
Proof. intros s e s' H. discriminate H. Qed.

Lemma invoke_only_Exception {A : Type} (c : call) (op : W -> outcome A * W) :
  only_Exception op -> raises_only_Exception (invoke c op).
Proof.
  intros Hop s e s' H. unfold invoke in H.
  destruct (op (ext s)) as [r w] eqn:E.
  injection H as -> _. exact (Hop _ _ _ E).
Qed.

Lemma len_only_Exception (v : pyval) :
  raises_only_Exception (@eval W nat (py_len v)).
Proof.
  intros s e s' H. unfold eval in H. injection H as H _.
  destruct v; simpl in H; try discriminate H; now injection H as <-.
Qed.

Lemma bind_only_Exception {A B : Type} (m : M W A) (k : A -> M W B) :
  raises_only_Exception m ->
  (forall a, raises_only_Exception (k a)) ->
  raises_only_Exception (bind m k).
Proof.
  intros Hm Hk s e s' H. unfold bind in H.
  destruct (m s) as [[a | e1] s1] eqn:E.
  - exact (Hk a _ _ _ H).
  - injection H as <- _. exact (Hm _ _ _ E).
Qed.

Lemma try_finally_only_Exception {A : Type} (body : M W A) cleanup :
  raises_only_Exception body ->
  raises_only_Exception cleanup ->
  raises_only_Exception (try_finally body cleanup).
Proof.
  intros Hb Hc s e s' H. unfold try_finally in H.
  destruct (body s) as [r s1] eqn:Eb.
  destruct (cleanup s1) as [[u | e2] s2] eqn:Ec.
  - injection H as -> _. exact (Hb _ _ _ Eb).
  - injection H as <- _. exact (Hc _ _ _ Ec).
Qed.

Lemma with_only_Exception {A : Type} enter release (body : handle -> M W A) :
  raises_only_Exception enter ->
  (forall x, raises_only_Exception (release x)) ->
  (forall x, raises_only_Exception (body x)) ->
  raises_only_Exception (with_ enter release body).
Proof.
  intros He Hr Hb. apply bind_only_Exception; [exact He | intros x].
  apply try_finally_only_Exception; [apply Hb | apply Hr].
Qed.

(** An [except Exception] around a body that raises nothing else, with a
    handler that returns, always returns. *)
Lemma try_except_total {A : Type} (body : M W A) handler :
  raises_only_Exception body ->
  (forall e, total (handler e)) ->
  total (try_except body handler).
Proof.
  intros Hb Hh s. unfold try_except.
  destruct (body s) as [[a | e] s1] eqn:E.
  - now exists a, s1.
  - rewrite (Hb _ _ _ E). apply Hh.
Qed.

Lemma print_then_ret_total {A : Type} (line : string) (a : A) :
  total (@print W line ;;; ret a).
Proof. intros s. now exists a, (printed line s). Qed.

End MonadFacts.

(** Appending a non-empty list of calls changes the list. *)
Lemma app_cons_neq {A : Type} (l : list A) (x : A) (r : list A) :
  (l ++ x :: r)%list <> l.
Proof.
  intros H. apply (f_equal (@List.length A)) in H.
  rewrite List.length_app in H. simpl in H. lia.
Qed.

(** ** The loader *)

Section Loader.
Context {W : Type} (L : library W).

Lemma load_cases_body_only_Exception (file_path : string) :
  file_library_ok L ->
  raises_only_Exception (load_cases_body L file_path).
Proof.
  intros (Hopen & Hload & Hclose). unfold load_cases_body.
  apply bind_only_Exception.
  - apply with_only_Exception; intros;
      apply invoke_only_Exception; auto.
  - intros cases. apply bind_only_Exception; [apply len_only_Exception |].
    intros n. apply bind_only_Exception; [apply print_only_Exception |].
    intros _. apply ret_only_Exception.
Qed.

Lemma load_cases_total (file_path : string) :
  file_library_ok L -> total (load_cases_from_json L file_path).
Proof.
  intros HL. apply try_except_total.
  - now apply load_cases_body_only_Exception.
  - intros e. apply print_then_ret_total.
Qed.

(** What the handler of the loader leaves behind. *)
Lemma load_cases_handles (file_path : string) (s : state W) e s1 :
  load_cases_body L file_path s = (Raised e, s1) ->
  isinstance_Exception e = true ->
  load_cases_from_json L file_path s
  = (Returned PyNone, printed ("Error loading JSON file: " ++ exn_str e) s1).
Proof.
  intros Hb He. unfold load_cases_from_json.
  now rewrite (try_except_caught _ _ _ _ _ Hb He).
Qed.

(** The [with] block when the file opens, parses and closes. *)
Lemma read_file_parsed (file_path : string) (s : state W) file v w1 w2 w3 :
  lib_open L file_path (ext s) = (Returned file, w1) ->
  lib_json_load L file w1 = (Returned v, w2) ->
  lib_file_close L file w2 = (Returned tt, w3) ->
  with_ (py_open L file_path) (file_close L) (fun f => json_load L f) s
  = (Returned v, after_read file_path file w3 s).
Proof.
  intros Ho Hl Hc.
  unfold with_, bind, try_finally, py_open, json_load, file_close, invoke.
  rewrite Ho. cbn. rewrite Hl. cbn. rewrite Hc.
  unfold after_read. now rewrite <- !app_assoc.
Qed.

(** The body of the loader on a file that parses as [v]: [len(v)] decides. *)
Lemma load_cases_body_parsed (file_path : string) (s : state W)
  file v w1 w2 w3 :
  lib_open L file_path (ext s) = (Returned file, w1) ->
  lib_json_load L file w1 = (Returned v, w2) ->
  lib_file_close L file w2 = (Returned tt, w3) ->
  load_cases_body L file_path s
  = match py_len v with
    | Returned n =>
        (Returned v,
         printed ("Successfully loaded " ++ str_nat n ++ " cases from "
                  ++ file_path ++ ".")
                 (after_read file_path file w3 s))
    | Raised e => (Raised e, after_read file_path file w3 s)
    end.
Proof.
  intros Ho Hl Hc. unfold load_cases_body.
  rewrite (bind_returned _ _ _ _ _ (read_file_parsed _ _ _ _ _ _ _ Ho Hl Hc)).
  unfold bind, eval. now destruct (py_len v).
Qed.

Lemma load_cases_parsed (file_path : string) (s : state W) file v w1 w2 w3 :
  lib_open L file_path (ext s) = (Returned file, w1) ->
  lib_json_load L file w1 = (Returned v, w2) ->
  lib_file_close L file w2 = (Returned tt, w3) ->
  load_cases_from_json L file_path s
  = match py_len v with
    | Returned n =>
        (Returned v,
         printed ("Successfully loaded " ++ str_nat n ++ " cases from "
                  ++ file_path ++ ".")
                 (after_read file_path file w3 s))
    | Raised e =>
        (Returned PyNone,
         printed ("Error loading JSON file: " ++ exn_str e)
                 (after_read file_path file w3 s))
    end.
Proof.
  intros Ho Hl Hc.
  pose proof (load_cases_body_parsed _ _ _ _ _ _ _ Ho Hl Hc) as Hb.
  destruct (py_len v) as [n | e] eqn:E.
  - unfold load_cases_from_json. now rewrite (try_except_returned _ _ _ _ _ Hb).
  - apply load_cases_handles; [exact Hb |].
    destruct v; simpl in E; try discriminate E; now injection E as <-.
Qed.

(** What the loader can return: [None], or a value that has a length. *)
Lemma load_cases_returns (file_path : string) (s : state W) v s1 :
  load_cases_from_json L file_path s = (Returned v, s1) ->
  v = PyNone \/ exists n, py_len v = Returned n.
Proof.
  unfold load_cases_from_json, try_except. intros H.
  destruct (load_cases_body L file_path s) as [[a | e] s2] eqn:Eb.
  - injection H as -> ->. right.
    unfold load_cases_body, bind, eval in Eb.
    destruct (with_ _ _ _ s) as [[c | e] s3]; [| discriminate Eb].
    destruct (py_len c) as [n | e] eqn:El; [| discriminate Eb].
    cbn in Eb. injection Eb as -> _. now exists n.
  - destruct (isinstance_Exception e); [| discriminate H].
    cbn in H. injection H as <- _. now left.
Qed.

(** The body of the loader when [open] raises: nothing else is called. *)
Lemma load_cases_body_open_raises (file_path : string) (s : state W) e w1 :
  lib_open L file_path (ext s) = (Raised e, w1) ->
  load_cases_body L file_path s
  = (Raised e, mk_state (stdout s) (calls s ++ [COpen file_path]) w1).
Proof.
  intros Ho. unfold load_cases_body, with_, bind, py_open, invoke.
  now rewrite Ho.
Qed.

(** The body of the loader when [json.load] raises: the file is closed on
    the way out of the [with] block and the exception goes on. *)
Lemma load_cases_body_json_raises (file_path : string) (s : state W)
  file e w1 w2 w3 :
  lib_open L file_path (ext s) = (Returned file, w1) ->
  lib_json_load L file w1 = (Raised e, w2) ->
  lib_file_close L file w2 = (Returned tt, w3) ->
  load_cases_body L file_path s = (Raised e, after_read file_path file w3 s).
Proof.
  intros Ho Hl Hc.
  unfold load_cases_body, with_, bind, try_finally, py_open, json_load,
    file_close, invoke.
  rewrite Ho. cbn. rewrite Hl. cbn. rewrite Hc.
  unfold after_read. now rewrite <- !app_assoc.
Qed.

(** C1.  For every file whose contents parse as a JSON array of [N]
    elements (objects or not), [load_cases_from_json] returns the list of
    exactly those [N] elements, in the order of the file, none dropped,
    merged or changed; the only other effect is the line that reports [N]. *)
Theorem load_cases_returns_the_array (file_path : string) (s : state W)
  (records : list pyval) (N : nat) file w1 w2 w3 :
  lib_open L file_path (ext s) = (Returned file, w1) ->
  lib_json_load L file w1 = (Returned (PyList records), w2) ->
  lib_file_close L file w2 = (Returned tt, w3) ->
  List.length records = N ->
  load_cases_from_json L file_path s
  = (Returned (PyList records),
     printed ("Successfully loaded " ++ str_nat N ++ " cases from "
              ++ file_path ++ ".")
             (after_read file_path file w3 s)).
Proof.
  intros Ho Hl Hc <-.
  now rewrite (load_cases_parsed _ _ _ _ _ _ _ Ho Hl Hc).
Qed.

(** C3.  Whatever makes [open], [json.load], the closing of the file or
    [len] raise an [Exception], [load_cases_from_json] catches it, prints
    [Error loading JSON file: ] followed by the message, and returns [None]:
    it returns from every state, and when its body raises the value is
    [None] and the state is the one at the failure plus that line.  In
    particular for a file that cannot be opened and for one that cannot be
    decoded or parsed. *)
Theorem load_cases_swallows_exceptions (file_path : string) (s : state W) :
  file_library_ok L ->
  (exists v s', load_cases_from_json L file_path s = (Returned v, s')) /\
  (forall e s1,
     load_cases_body L file_path s = (Raised e, s1) ->
     load_cases_from_json L file_path s
     = (Returned PyNone,
        printed ("Error loading JSON file: " ++ exn_str e) s1)) /\
  (forall e w1,
     lib_open L file_path (ext s) = (Raised e, w1) ->
     load_cases_from_json L file_path s
     = (Returned PyNone,
        printed ("Error loading JSON file: " ++ exn_str e)
                (mk_state (stdout s) (calls s ++ [COpen file_path]) w1))) /\
  (forall file e w1 w2 w3,
     lib_open L file_path (ext s) = (Returned file, w1) ->
     lib_json_load L file w1 = (Raised e, w2) ->
     lib_file_close L file w2 = (Returned tt, w3) ->
     load_cases_from_json L file_path s
     = (Returned PyNone,
        printed ("Error loading JSON file: " ++ exn_str e)
                (after_read file_path file w3 s))).
Proof.
  intros HL.
  pose proof (load_cases_body_only_Exception file_path HL) as Hroe.
  assert (Hcatch : forall e s1,
             load_cases_body L file_path s = (Raised e, s1) ->
             load_cases_from_json L file_path s
             = (Returned PyNone,
                printed ("Error loading JSON file: " ++ exn_str e) s1)).
  { intros e s1 Hb. apply load_cases_handles; [exact Hb |].
    exact (Hroe _ _ _ Hb). }
  split; [apply (load_cases_total file_path HL) |].
  split; [exact Hcatch |].
  split.
  - intros e w1 Ho. apply Hcatch. now apply load_cases_body_open_raises.
  - intros file e w1 w2 w3 Ho Hl Hc. apply Hcatch.
    now apply (load_cases_body_json_raises _ _ _ _ _ _ _ Ho Hl Hc).
Qed.

(** C10.  [load_cases_from_json] does not check that the parsed value is an
    array.  A top-level object or string is returned as it is, the line
    printed giving its number of keys or of characters; a top-level number,
    boolean or [null] makes [len] raise a [TypeError], which is caught, so
    that [None] is returned and the error is printed. *)
Theorem load_cases_does_not_check_array (file_path : string) (s : state W)
  (v : pyval) file w1 w2 w3 :
  lib_open L file_path (ext s) = (Returned file, w1) ->
  lib_json_load L file w1 = (Returned v, w2) ->
  lib_file_close L file w2 = (Returned tt, w3) ->
  load_cases_from_json L file_path s
  = match v with
    | PyDict items =>
        (Returned v,
         printed ("Successfully loaded " ++ str_nat (dict_len items)
                  ++ " cases from " ++ file_path ++ ".")
                 (after_read file_path file w3 s))
    | PyStr str =>
        (Returned v,
         printed ("Successfully loaded " ++ str_nat (String.length str)
                  ++ " cases from " ++ file_path ++ ".")
                 (after_read file_path file w3 s))
    | PyList items =>
        (Returned v,
         printed ("Successfully loaded " ++ str_nat (List.length items)
                  ++ " cases from " ++ file_path ++ ".")
                 (after_read file_path file w3 s))
    | PyNone | PyBool _ | PyInt _ | PyFloat _ =>
        (Returned PyNone,
         printed ("Error loading JSON file: object of type '"
                  ++ type_name v ++ "' has no len()")
                 (after_read file_path file w3 s))
    end.
Proof.
  intros Ho Hl Hc.
  rewrite (load_cases_parsed _ _ _ _ _ _ _ Ho Hl Hc).
  now destruct v.
Qed.

End Loader.

(** ** The publisher *)

Section Publisher.
Context {W : Type} (L : library W).

Lemma push_cases_body_only_Exception cases mongo_uri db_name collection_name :
  mongo_library_ok L ->
  raises_only_Exception
    (push_cases_body L cases mongo_uri db_name collection_name).
Proof.
  intros (Hclient & Hdb & Hcoll & Hins). unfold push_cases_body.
  apply bind_only_Exception; [apply invoke_only_Exception; auto | intros c].
  apply bind_only_Exception; [apply print_only_Exception | intros _].
  apply bind_only_Exception; [apply invoke_only_Exception; auto | intros d].
  apply bind_only_Exception; [apply invoke_only_Exception; auto | intros k].
  apply bind_only_Exception; [apply invoke_only_Exception; auto | intros r].
  apply bind_only_Exception; [apply print_only_Exception | intros _].
  apply ret_only_Exception.
Qed.

(** The body has no [return]: when it ends, the function returns [None]. *)
Lemma push_cases_body_returns_None cases mongo_uri db_name collection_name
  (s : state W) a s1 :
  push_cases_body L cases mongo_uri db_name collection_name s
  = (Returned a, s1) ->
  a = PyNone.
Proof.
  unfold push_cases_body, bind, MongoClient, client_getitem, db_getitem,
    insert_many, invoke, print, ret.
  destruct (lib_MongoClient L mongo_uri (ext s)) as [[c | e] w1]; cbn;
    [| discriminate].
  destruct (lib_client_getitem L c db_name w1) as [[d | e] w2]; cbn;
    [| discriminate].
  destruct (lib_db_getitem L d collection_name w2) as [[k | e] w3]; cbn;
    [| discriminate].
  destruct (lib_insert_many L k cases w3) as [[r | e] w4]; cbn;
    [| discriminate].
  intros H. now injection H as <- _.
Qed.

Lemma push_cases_handles cases mongo_uri db_name collection_name
  (s : state W) e s1 :
  push_cases_body L cases mongo_uri db_name collection_name s
  = (Raised e, s1) ->
  isinstance_Exception e = true ->
  push_cases_to_mongodb L cases mongo_uri db_name collection_name s
  = (Returned PyNone,
     printed ("Error inserting cases into MongoDB: " ++ exn_str e) s1).
Proof.
  intros Hb He. unfold push_cases_to_mongodb.
  now rewrite (try_except_caught _ _ _ _ _ Hb He).
Qed.

Lemma push_cases_returns_None cases mongo_uri db_name collection_name
  (s : state W) :
  mongo_library_ok L ->
  exists s',
    push_cases_to_mongodb L cases mongo_uri db_name collection_name s
    = (Returned PyNone, s').
Proof.
  intros HL.
  destruct (push_cases_body L cases mongo_uri db_name collection_name s)
    as [[a | e] s1] eqn:Eb.
  - exists s1. unfold push_cases_to_mongodb.
    rewrite (try_except_returned _ _ _ _ _ Eb).
    now rewrite (push_cases_body_returns_None _ _ _ _ _ _ _ Eb).
  - eexists. apply push_cases_handles; [exact Eb |].
    exact (push_cases_body_only_Exception _ _ _ _ HL _ _ _ Eb).
Qed.

(** The calls of one run of the publisher: [MongoClient] first, and never
    more than one [insert_many]. *)
Lemma push_cases_calls cases mongo_uri db_name collection_name (s : state W) :
  exists rest,
    calls (snd (push_cases_to_mongodb L cases mongo_uri db_name
                  collection_name s))
    = (calls s ++ CMongoClient mongo_uri :: rest)%list /\
    List.length (filter is_insert_many rest) <= 1.
Proof.
  unfold push_cases_to_mongodb, try_except, push_cases_body, bind,
    MongoClient, client_getitem, db_getitem, insert_many, invoke, print, ret.
  destruct (lib_MongoClient L mongo_uri (ext s)) as [[c | e] w1]; cbn.
  2: { exists []. destruct (isinstance_Exception e); cbn; split; auto. }
  destruct (lib_client_getitem L c db_name w1) as [[d | e] w2]; cbn.
  2: { exists [CClientGetitem c db_name].
       destruct (isinstance_Exception e); cbn; rewrite <- !app_assoc;
         split; auto. }
  destruct (lib_db_getitem L d collection_name w2) as [[k | e] w3]; cbn.
  2: { exists [CClientGetitem c db_name; CDbGetitem d collection_name].
       destruct (isinstance_Exception e); cbn; rewrite <- !app_assoc;
         split; auto. }
  exists [CClientGetitem c db_name; CDbGetitem d collection_name;
          CInsertMany k cases].
  destruct (lib_insert_many L k cases w3) as [[r | e] w4]; cbn.
  - rewrite <- !app_assoc. split; auto.
  - destruct (isinstance_Exception e); cbn; rewrite <- !app_assoc;
      split; auto.
Qed.

(** C4.  Given [N] records and a store that answers (the client, the
    database and the collection are obtained, and [insert_many] accepts the
    records and acknowledges [N] identifiers), [push_cases_to_mongodb] makes
    exactly one [insert_many] call, whose argument is the whole list of the
    [N] records, leaves the store as that one call left it, and prints that
    [N] cases were inserted. *)
Theorem push_cases_single_bulk_insert (records : list pyval) (N : nat)
  (mongo_uri db_name collection_name : string) (s : state W)
  client db collection (result : InsertManyResult) w1 w2 w3 w4 :
  List.length records = N ->
  lib_MongoClient L mongo_uri (ext s) = (Returned client, w1) ->
  lib_client_getitem L client db_name w1 = (Returned db, w2) ->
  lib_db_getitem L db collection_name w2 = (Returned collection, w3) ->
  lib_insert_many L collection (PyList records) w3 = (Returned result, w4) ->
  List.length (inserted_ids result) = N ->
  exists new,
    push_cases_to_mongodb L (PyList records) mongo_uri db_name
      collection_name s
    = (Returned PyNone,
       mk_state
         (stdout s ++ ["Connected to MongoDB successfully.";
                       "Successfully inserted " ++ str_nat N
                       ++ " cases into MongoDB."])
         (calls s ++ new) w4) /\
    filter is_insert_many new = [CInsertMany collection (PyList records)] /\
    new = [CMongoClient mongo_uri; CClientGetitem client db_name;
           CDbGetitem db collection_name;
           CInsertMany collection (PyList records)].
Proof.
  intros _ Hc Hd Hk Hi <-.
  eexists. split; [| split; [| reflexivity]]; [| reflexivity].
  unfold push_cases_to_mongodb, try_except, push_cases_body, bind,
    MongoClient, client_getitem, db_getitem, insert_many, invoke, print, ret.
  rewrite Hc. cbn. rewrite Hd. cbn. rewrite Hk. cbn. rewrite Hi. cbn.
  now rewrite <- !app_assoc.
Qed.

(** C5.  Every [Exception] raised inside [push_cases_to_mongodb] is caught:
    the function returns [None] from every state; when its body raises, it
    prints [Error inserting cases into MongoDB: ] followed by the message
    and does nothing else (no further call to the store, so no retry and no
    rollback, and no other line); and no run makes more than one
    [insert_many] call. *)
Theorem push_cases_swallows_exceptions (cases : pyval)
  (mongo_uri db_name collection_name : string) (s : state W) :
  mongo_library_ok L ->
  (exists s',
     push_cases_to_mongodb L cases mongo_uri db_name collection_name s
     = (Returned PyNone, s')) /\
  (forall e s1,
     push_cases_body L cases mongo_uri db_name collection_name s
     = (Raised e, s1) ->
     push_cases_to_mongodb L cases mongo_uri db_name collection_name s
     = (Returned PyNone,
        mk_state
          (stdout s1 ++ ["Error inserting cases into MongoDB: " ++ exn_str e])
          (calls s1) (ext s1))) /\
  (exists rest,
     calls (snd (push_cases_to_mongodb L cases mongo_uri db_name
                   collection_name s))
     = (calls s ++ CMongoClient mongo_uri :: rest)%list /\
     List.length (filter is_insert_many rest) <= 1).
Proof.
  intros HL. split; [now apply push_cases_returns_None |].
  split; [| apply push_cases_calls].
  intros e s1 Hb. apply push_cases_handles; [exact Hb |].
  exact (push_cases_body_only_Exception _ _ _ _ HL _ _ _ Hb).
Qed.

End Publisher.

(** ** The main block *)

Section Main.
Context {W : Type} (L : library W).

(** The main block once the loader has returned [v]: the [if cases:]. *)
Lemma main_after_load (s : state W) v s1 :
  load_cases_from_json L JSON_FILE_PATH s = (Returned v, s1) ->
  main L s
  = if truthy v
    then (push_cases_to_mongodb L v MONGO_URI DB_NAME COLLECTION_NAME ;;;
          ret tt) s1
    else (Returned tt, s1).
Proof.
  intros Hl. unfold main. rewrite (bind_returned _ _ _ _ _ Hl).
  now destruct (truthy v).
Qed.

(** Discarding the value of a call leaves its state. *)
Lemma snd_discard {A B : Type} (m : M W A) (b : B) (s : state W) :
  snd ((m ;;; ret b) s) = snd (m s).
Proof. unfold bind, ret. now destruct (m s) as [[a | e] s1]. Qed.

(** Which of the values the loader returns are false in an [if]. *)
Lemma loaded_falsy (s : state W) v s1 :
  load_cases_from_json L JSON_FILE_PATH s = (Returned v, s1) ->
  truthy v = false <->
  v = PyNone \/ v = PyList [] \/ v = PyDict [] \/ v = PyStr "".
Proof.
  intros Hl. split.
  - intros Ht.
    destruct (load_cases_returns _ _ _ _ _ Hl) as [-> | [n Hn]]; [now left |].
    destruct v as [ | b | z | f | str | items | items];
      simpl in Hn; try discriminate Hn.
    + destruct str; [auto | discriminate Ht].
    + destruct items; [auto | discriminate Ht].
    + destruct items; [auto | discriminate Ht].
  - intros [-> | [-> | [-> | ->]]]; reflexivity.
Qed.

(** C2, as the code has it.  The value the loader returns is handed
    unchanged to the publisher, together with the three constants, and the
    publisher is invoked if and only if that value is true in an [if]: not
    when the loader returns [None] (its failure value), and not when it
    returns an empty array, object or string either; in every other case the
    value is published. *)
Theorem main_publishes_iff_truthy (s : state W) (v : pyval) (s1 : state W) :
  load_cases_from_json L JSON_FILE_PATH s = (Returned v, s1) ->
  main L s
  = (if truthy v
     then (push_cases_to_mongodb L v MONGO_URI DB_NAME COLLECTION_NAME ;;;
           ret tt) s1
     else (Returned tt, s1)) /\
  (publisher_invoked s1 (snd (main L s)) <-> truthy v = true) /\
  (truthy v = false <->
   v = PyNone \/ v = PyList [] \/ v = PyDict [] \/ v = PyStr "").
Proof.
  intros Hl. pose proof (main_after_load _ _ _ Hl) as Hm.
  split; [exact Hm |]. split; [| exact (loaded_falsy _ _ _ Hl)].
  rewrite Hm. destruct (truthy v).
  - split; [reflexivity | intros _].
    rewrite snd_discard. unfold publisher_invoked.
    destruct (push_cases_calls L v MONGO_URI DB_NAME COLLECTION_NAME s1)
      as (rest & Hc & _).
    now exists rest.
  - split; [| discriminate].
    intros [rest Hc]. cbn in Hc. symmetry in Hc.
    now apply app_cons_neq in Hc.
Qed.

(** With libraries that raise only instances of [Exception], the main block
    returns. *)
Lemma main_returns (s : state W) :
  file_library_ok L ->
  mongo_library_ok L ->
  exists s', main L s = (Returned tt, s').
Proof.
  intros HF HM.
  destruct (load_cases_total L JSON_FILE_PATH HF s) as (v & s1 & Hl).
  rewrite (main_after_load _ _ _ Hl). destruct (truthy v).
  - destruct (push_cases_returns_None L v MONGO_URI DB_NAME
                COLLECTION_NAME s1 HM) as [s2 Hp].
    exists s2. now rewrite (bind_returned _ _ _ _ _ Hp).
  - now exists s1.
Qed.

(** C6.  Whatever the file and the store do, as long as what they raise are
    instances of [Exception], the main block ends without an exception, so
    the process exits with status 0. *)
Theorem main_exits_zero (s : state W) :
  file_library_ok L ->
  mongo_library_ok L ->
  (exists s', main L s = (Returned tt, s')) /\
  exit_status (fst (main L s)) = ExitZero.
Proof.
  intros HF HM. pose proof (main_returns s HF HM) as H.
  split; [exact H |]. destruct H as [s' ->]. reflexivity.
Qed.

(** C7.  When the case file parses as the empty array, the loader succeeds
    and returns the empty list, which is not [None]; the test [if cases:]
    takes it for false all the same, so the main block ends in the state
    the loader left and the publisher is not invoked. *)
Theorem main_skips_empty_array (s : state W) file w1 w2 w3 :
  lib_open L JSON_FILE_PATH (ext s) = (Returned file, w1) ->
  lib_json_load L file w1 = (Returned (PyList []), w2) ->
  lib_file_close L file w2 = (Returned tt, w3) ->
  exists s1,
    s1 = printed ("Successfully loaded 0 cases from " ++ JSON_FILE_PATH ++ ".")
                 (after_read JSON_FILE_PATH file w3 s) /\
    load_cases_from_json L JSON_FILE_PATH s = (Returned (PyList []), s1) /\
    PyList [] <> PyNone /\
    truthy (PyList []) = truthy PyNone /\
    main L s = (Returned tt, s1) /\
    ~ publisher_invoked s1 (snd (main L s)).
Proof.
  intros Ho Hl Hc. eexists. split; [reflexivity |].
  pose proof (load_cases_parsed L _ _ _ _ _ _ _ Ho Hl Hc) as Hload.
  cbn [py_len List.length] in Hload.
  assert (Hm := main_after_load _ _ _ Hload). cbn [truthy] in Hm.
  change (negb (Nat.eqb (@List.length pyval []) 0)) with false in Hm.
  split; [exact Hload |]. split; [discriminate |].
  split; [reflexivity |]. split; [exact Hm |].
  rewrite Hm. intros [rest Hr]. cbn [snd] in Hr. symmetry in Hr.
  now apply app_cons_neq in Hr.
Qed.

End Main.

(** ** The browser probe *)

Section Probe.
Context {W : Type} (L : library W).

(** [run] when [page.goto] raises: the screenshot is skipped, the browser
    is closed, and the exception goes on to the caller. *)
Lemma run_goto_raises (playwright : handle) (s : state W)
  browser page e w1 w2 w3 w4 :
  lib_launch L playwright (ext s) = (Returned browser, w1) ->
  lib_new_page L browser w1 = (Returned page, w2) ->
  lib_goto L page NAVBAR_URL w2 = (Raised e, w3) ->
  lib_browser_close L browser w3 = (Returned tt, w4) ->
  run L playwright s
  = (Raised e,
     mk_state (stdout s)
       (calls s ++ [CLaunch playwright; CNewPage browser;
                    CGoto page NAVBAR_URL; CBrowserClose browser]) w4).
Proof.
  intros Hl Hn Hg Hc.
  unfold run, bind, try_finally, chromium_launch, new_page, page_goto,
    page_screenshot, browser_close, invoke.
  rewrite Hl. cbn. rewrite Hn. cbn. rewrite Hg. cbn. rewrite Hc.
  now rewrite <- !app_assoc.
Qed.

Lemma run_screenshot_raises (playwright : handle) (s : state W)
  browser page e w1 w2 w3 w4 w5 :
  lib_launch L playwright (ext s) = (Returned browser, w1) ->
  lib_new_page L browser w1 = (Returned page, w2) ->
  lib_goto L page NAVBAR_URL w2 = (Returned tt, w3) ->
  lib_screenshot L page SCREENSHOT_PATH w3 = (Raised e, w4) ->
  lib_browser_close L browser w4 = (Returned tt, w5) ->
  run L playwright s
  = (Raised e,
     mk_state (stdout s)
       (calls s ++ [CLaunch playwright; CNewPage browser;
                    CGoto page NAVBAR_URL; CScreenshot page SCREENSHOT_PATH;
                    CBrowserClose browser]) w5).
Proof.
  intros Hl Hn Hg Hs Hc.
  unfold run, bind, try_finally, chromium_launch, new_page, page_goto,
    page_screenshot, browser_close, invoke.
  rewrite Hl. cbn. rewrite Hn. cbn. rewrite Hg. cbn. rewrite Hs. cbn.
  rewrite Hc. now rewrite <- !app_assoc.
Qed.

(** The module body around a [run] that raises: playwright is stopped and
    the exception reaches the top level. *)
Lemma verify_navbar_run_raises (s : state W) playwright e s1 w0 w9 :
  lib_playwright_start L (ext s) = (Returned playwright, w0) ->
  run L playwright (mk_state (stdout s) (calls s ++ [CPlaywrightStart]) w0)
  = (Raised e, s1) ->
  lib_playwright_stop L playwright (ext s1) = (Returned tt, w9) ->
  verify_navbar L s
  = (Raised e,
     mk_state (stdout s1) (calls s1 ++ [CPlaywrightStop playwright]) w9).
Proof.
  intros Hs Hr Hp.
  unfold verify_navbar, with_, bind, try_finally, sync_playwright_enter,
    sync_playwright_exit, invoke.
  rewrite Hs. cbn. rewrite Hr. cbn. now rewrite Hp.
Qed.

(** C8, as the code has it.  In every run of [run] in which the browser is
    launched and the page is created, so that the [try] block is entered,
    [browser.close()] is called exactly once, as the last call before [run]
    returns or lets an exception through, whether [page.goto] and
    [page.screenshot] return or either of them raises. *)
Theorem run_closes_browser_once_entered (playwright : handle) (s : state W)
  browser page w1 w2 :
  lib_launch L playwright (ext s) = (Returned browser, w1) ->
  lib_new_page L browser w1 = (Returned page, w2) ->
  exists mid,
    calls (snd (run L playwright s))
    = (calls s ++ [CLaunch playwright; CNewPage browser] ++ mid
       ++ [CBrowserClose browser])%list /\
    filter is_browser_close mid = [] /\
    (mid = [CGoto page NAVBAR_URL] \/
     mid = [CGoto page NAVBAR_URL; CScreenshot page SCREENSHOT_PATH]).
Proof.
  intros Hl Hn.
  unfold run, bind, try_finally, chromium_launch, new_page, page_goto,
    page_screenshot, browser_close, invoke, ret.
  rewrite Hl. cbn. rewrite Hn. cbn.
  destruct (lib_goto L page NAVBAR_URL w2) as [[[] | e] w3]; cbn.
  - exists [CGoto page NAVBAR_URL; CScreenshot page SCREENSHOT_PATH].
    destruct (lib_screenshot L page SCREENSHOT_PATH w3) as [[[] | e] w4];
      cbn;
      destruct (lib_browser_close L browser w4) as [[[] | e'] w5]; cbn;
      rewrite <- !app_assoc; auto.
  - exists [CGoto page NAVBAR_URL].
    destruct (lib_browser_close L browser w3) as [[[] | e'] w4]; cbn;
      rewrite <- !app_assoc; auto.
Qed.

(** C9, as the code has it.  In [generateCases.py] every [Exception] raised
    while loading or publishing is caught by the [except] clause around it,
    printed and otherwise ignored: both functions return, and the main block
    ends with status 0.  [verify_navbar.py] has no [except] clause: an
    exception raised by [page.goto] or [page.screenshot] is not printed; once
    [browser.close()] has run it leaves [run], then the module body, and the
    script ends with a status other than 0. *)
Theorem ingestion_swallows_probe_propagates :
  file_library_ok L ->
  mongo_library_ok L ->
  (forall file_path s e s1,
     load_cases_body L file_path s = (Raised e, s1) ->
     load_cases_from_json L file_path s
     = (Returned PyNone,
        printed ("Error loading JSON file: " ++ exn_str e) s1)) /\
  (forall cases mongo_uri db_name collection_name s e s1,
     push_cases_body L cases mongo_uri db_name collection_name s
     = (Raised e, s1) ->
     push_cases_to_mongodb L cases mongo_uri db_name collection_name s
     = (Returned PyNone,
        printed ("Error inserting cases into MongoDB: " ++ exn_str e) s1)) /\
  (forall s, exists s',
     main L s = (Returned tt, s') /\
     exit_status (fst (main L s)) = ExitZero) /\
  (forall playwright s browser page e w1 w2 w3 w4,
     lib_launch L playwright (ext s) = (Returned browser, w1) ->
     lib_new_page L browser w1 = (Returned page, w2) ->
     lib_goto L page NAVBAR_URL w2 = (Raised e, w3) ->
     lib_browser_close L browser w3 = (Returned tt, w4) ->
     run L playwright s
     = (Raised e,
        mk_state (stdout s)
          (calls s ++ [CLaunch playwright; CNewPage browser;
                       CGoto page NAVBAR_URL; CBrowserClose browser]) w4)) /\
  (forall playwright s browser page e w1 w2 w3 w4 w5,
     lib_launch L playwright (ext s) = (Returned browser, w1) ->
     lib_new_page L browser w1 = (Returned page, w2) ->
     lib_goto L page NAVBAR_URL w2 = (Returned tt, w3) ->
     lib_screenshot L page SCREENSHOT_PATH w3 = (Raised e, w4) ->
     lib_browser_close L browser w4 = (Returned tt, w5) ->
     run L playwright s
     = (Raised e,
        mk_state (stdout s)
          (calls s ++ [CLaunch playwright; CNewPage browser;
                       CGoto page NAVBAR_URL;
                       CScreenshot page SCREENSHOT_PATH;
                       CBrowserClose browser]) w5)) /\
  (forall s playwright e s1 w0 w9,
     lib_playwright_start L (ext s) = (Returned playwright, w0) ->
     run L playwright
       (mk_state (stdout s) (calls s ++ [CPlaywrightStart]) w0)
     = (Raised e, s1) ->
     lib_playwright_stop L playwright (ext s1) = (Returned tt, w9) ->
     verify_navbar L s
     = (Raised e,
        mk_state (stdout s1) (calls s1 ++ [CPlaywrightStop playwright]) w9) /\
     exit_status (fst (verify_navbar L s)) = ExitNonZero).
Proof.
  intros HF HM.
  split; [| split; [| split; [| split; [| split]]]].
  - intros file_path s e s1 Hb. apply load_cases_handles; [exact Hb |].
    exact (load_cases_body_only_Exception L file_path HF _ _ _ Hb).
  - intros cases mongo_uri db_name collection_name s e s1 Hb.
    apply push_cases_handles; [exact Hb |].
    exact (push_cases_body_only_Exception L _ _ _ _ HM _ _ _ Hb).
  - intros s. destruct (main_returns L s HF HM) as [s' Hm].
    exists s'. split; [exact Hm |]. now rewrite Hm.
  - intros playwright s browser page e w1 w2 w3 w4. apply run_goto_raises.
  - intros playwright s browser page e w1 w2 w3 w4 w5.
    apply run_screenshot_raises.
  - intros s playwright e s1 w0 w9 Hs Hr Hp.
    pose proof (verify_navbar_run_raises _ _ _ _ _ _ Hs Hr Hp) as Hv.
    split; [exact Hv |]. now rewrite Hv.
Qed.

End Probe.

(** ** The scripts on the simulated world *)

Lemma sim_file_library_ok : file_library_ok Sim.lib.
Proof.
  repeat split; intros x w e w' H; cbn in H.
  - unfold Sim.sim_open in H.
    destruct (Sim.find_file x (Sim.disk w) 0); [discriminate H |].
    now injection H as <- _.
  - unfold Sim.sim_json_load in H.
    destruct (nth_error (Sim.disk w) x) as [[p [v | msg | msg]] |];
      try discriminate H; now injection H as <- _.
  - discriminate H.
Qed.

Lemma sim_mongo_library_ok : mongo_library_ok Sim.lib.
Proof.
  repeat split; try (intros; intros w e w' H; discriminate H).
  intros k v w e w' H. cbn in H. unfold Sim.sim_insert_many in H.
  destruct (Sim.store w) as [old |].
  - destruct v as [ | | | | | [ | d ds] | ]; try discriminate H;
      now injection H as <- _.
  - now injection H as <- _.
Qed.

(** Three records, two of them equal, come back as three, in order. *)
Lemma load_cases_returns_the_array_witness :
  List.length [Sim.case_1; Sim.case_2; Sim.case_1] = 3 /\
  load_cases_from_json Sim.lib JSON_FILE_PATH
    (Sim.start
       (Sim.with_file
          (Sim.Parses (PyList [Sim.case_1; Sim.case_2; Sim.case_1]))))
  = (Returned (PyList [Sim.case_1; Sim.case_2; Sim.case_1]),
     mk_state
       ["Successfully loaded 3 cases from ..\cases\case_100.json."]
       [COpen JSON_FILE_PATH; CJsonLoad 0; CFileClose 0]
       (Sim.with_file
          (Sim.Parses (PyList [Sim.case_1; Sim.case_2; Sim.case_1])))).
Proof.
  split; [reflexivity |].
  apply (load_cases_returns_the_array Sim.lib JSON_FILE_PATH
           (Sim.start
              (Sim.with_file
                 (Sim.Parses (PyList [Sim.case_1; Sim.case_2; Sim.case_1]))))
           [Sim.case_1; Sim.case_2; Sim.case_1] 3 0%nat
           (Sim.with_file
              (Sim.Parses (PyList [Sim.case_1; Sim.case_2; Sim.case_1])))
           (Sim.with_file
              (Sim.Parses (PyList [Sim.case_1; Sim.case_2; Sim.case_1])))
           (Sim.with_file
              (Sim.Parses (PyList [Sim.case_1; Sim.case_2; Sim.case_1]))));
    reflexivity.
Defined.

(** A missing file: the loader prints the error and returns [None]. *)
Lemma load_cases_swallows_exceptions_witness :
  file_library_ok Sim.lib /\
  load_cases_from_json Sim.lib JSON_FILE_PATH (Sim.start Sim.no_file)
  = (Returned PyNone,
     mk_state
       ["Error loading JSON file: [Errno 2] No such file or directory: '..\cases\case_100.json'"]
       [COpen JSON_FILE_PATH] Sim.no_file).
Proof.
  split; [exact sim_file_library_ok |].
  destruct (load_cases_swallows_exceptions Sim.lib JSON_FILE_PATH
              (Sim.start Sim.no_file) sim_file_library_ok)
    as (_ & _ & Hopen & _).
  apply (Hopen (mk_exn FileNotFoundError
                  "[Errno 2] No such file or directory: '..\cases\case_100.json'")
               Sim.no_file).
  reflexivity.
Defined.

(** An object with two keys is returned as it is and counted as 2; the
    number 3 makes the loader print the [TypeError] and return [None]. *)
Lemma load_cases_does_not_check_array_witness :
  load_cases_from_json Sim.lib JSON_FILE_PATH
    (Sim.start (Sim.with_file (Sim.Parses Sim.case_1)))
  = (Returned Sim.case_1,
     mk_state
       ["Successfully loaded 2 cases from ..\cases\case_100.json."]
       [COpen JSON_FILE_PATH; CJsonLoad 0; CFileClose 0]
       (Sim.with_file (Sim.Parses Sim.case_1))) /\
  load_cases_from_json Sim.lib JSON_FILE_PATH
    (Sim.start (Sim.with_file (Sim.Parses (PyInt 3))))
  = (Returned PyNone,
     mk_state
       ["Error loading JSON file: object of type 'int' has no len()"]
       [COpen JSON_FILE_PATH; CJsonLoad 0; CFileClose 0]
       (Sim.with_file (Sim.Parses (PyInt 3)))).
Proof.
  split.
  - apply (load_cases_does_not_check_array Sim.lib JSON_FILE_PATH
             (Sim.start (Sim.with_file (Sim.Parses Sim.case_1)))
             Sim.case_1 0%nat
             (Sim.with_file (Sim.Parses Sim.case_1))
             (Sim.with_file (Sim.Parses Sim.case_1))
             (Sim.with_file (Sim.Parses Sim.case_1)));
      reflexivity.
  - apply (load_cases_does_not_check_array Sim.lib JSON_FILE_PATH
             (Sim.start (Sim.with_file (Sim.Parses (PyInt 3))))
             (PyInt 3) 0%nat
             (Sim.with_file (Sim.Parses (PyInt 3)))
             (Sim.with_file (Sim.Parses (PyInt 3)))
             (Sim.with_file (Sim.Parses (PyInt 3))));
      reflexivity.
Defined.

(** Two records into an empty store: one call, two documents, two
    identifiers reported. *)
Lemma push_cases_single_bulk_insert_witness :
  exists new,
    push_cases_to_mongodb Sim.lib (PyList [Sim.case_1; Sim.case_2])
      MONGO_URI DB_NAME COLLECTION_NAME (Sim.start Sim.no_file)
    = (Returned PyNone,
       mk_state
         ["Connected to MongoDB successfully.";
          "Successfully inserted 2 cases into MongoDB."]
         new
         (Sim.mk_world [] (Some [Sim.case_1; Sim.case_2]) 3 true true)) /\
    filter is_insert_many new
    = [CInsertMany 3 (PyList [Sim.case_1; Sim.case_2])].
Proof.
  destruct (push_cases_single_bulk_insert Sim.lib
              [Sim.case_1; Sim.case_2] 2 MONGO_URI DB_NAME COLLECTION_NAME
              (Sim.start Sim.no_file) 1%nat 2%nat 3%nat
              (mk_InsertManyResult [PyInt 1; PyInt 2] true)
              Sim.no_file Sim.no_file Sim.no_file
              (Sim.mk_world [] (Some [Sim.case_1; Sim.case_2]) 3 true true)
              eq_refl eq_refl eq_refl eq_refl eq_refl eq_refl)
    as (new & Hrun & Hone & Hnew).
  exists new. split; [exact Hrun | exact Hone].
Defined.

(** No server answers: the publisher prints the error and returns. *)
Lemma push_cases_swallows_exceptions_witness :
  mongo_library_ok Sim.lib /\
  push_cases_to_mongodb Sim.lib (PyList [Sim.case_1]) MONGO_URI DB_NAME
    COLLECTION_NAME
    (Sim.start (Sim.no_server (Sim.Parses (PyList [Sim.case_1]))))
  = (Returned PyNone,
     mk_state
       ["Connected to MongoDB successfully.";
        "Error inserting cases into MongoDB: localhost:27017: [Errno 111] Connection refused"]
       [CMongoClient MONGO_URI; CClientGetitem 1 DB_NAME;
        CDbGetitem 2 COLLECTION_NAME; CInsertMany 3 (PyList [Sim.case_1])]
       (Sim.no_server (Sim.Parses (PyList [Sim.case_1])))).
Proof.
  split; [exact sim_mongo_library_ok |].
  destruct (push_cases_swallows_exceptions Sim.lib (PyList [Sim.case_1])
              MONGO_URI DB_NAME COLLECTION_NAME
              (Sim.start (Sim.no_server (Sim.Parses (PyList [Sim.case_1]))))
              sim_mongo_library_ok)
    as (_ & Hcatch & _).
  apply (Hcatch
           (mk_exn (OtherException "ServerSelectionTimeoutError")
              "localhost:27017: [Errno 111] Connection refused")
           (mk_state
              ["Connected to MongoDB successfully."]
              [CMongoClient MONGO_URI; CClientGetitem 1 DB_NAME;
               CDbGetitem 2 COLLECTION_NAME;
               CInsertMany 3 (PyList [Sim.case_1])]
              (Sim.no_server (Sim.Parses (PyList [Sim.case_1]))))).
  reflexivity.
Defined.

(** One record in the file: the main block hands it to the publisher. *)
Lemma main_publishes_iff_truthy_witness :
  load_cases_from_json Sim.lib JSON_FILE_PATH
    (Sim.start (Sim.with_file (Sim.Parses (PyList [Sim.case_1]))))
  = (Returned (PyList [Sim.case_1]),
     mk_state
       ["Successfully loaded 1 cases from ..\cases\case_100.json."]
       [COpen JSON_FILE_PATH; CJsonLoad 0; CFileClose 0]
       (Sim.with_file (Sim.Parses (PyList [Sim.case_1])))) /\
  publisher_invoked
    (mk_state
       ["Successfully loaded 1 cases from ..\cases\case_100.json."]
       [COpen JSON_FILE_PATH; CJsonLoad 0; CFileClose 0]
       (Sim.with_file (Sim.Parses (PyList [Sim.case_1]))))
    (snd (main Sim.lib
            (Sim.start (Sim.with_file (Sim.Parses (PyList [Sim.case_1])))))).
Proof.
  split; [reflexivity |].
  destruct (main_publishes_iff_truthy Sim.lib
              (Sim.start (Sim.with_file (Sim.Parses (PyList [Sim.case_1]))))
              (PyList [Sim.case_1])
              (mk_state
                 ["Successfully loaded 1 cases from ..\cases\case_100.json."]
                 [COpen JSON_FILE_PATH; CJsonLoad 0; CFileClose 0]
                 (Sim.with_file (Sim.Parses (PyList [Sim.case_1]))))
              eq_refl)
    as (_ & Hiff & _).
  apply Hiff. reflexivity.
Defined.

(** C2 as stated fails on a file that holds the empty array: loading
    succeeds, with a value other than [None], and the publisher is not
    invoked. *)
Lemma main_empty_array_counterexample :
  load_cases_from_json Sim.lib JSON_FILE_PATH
    (Sim.start (Sim.with_file (Sim.Parses (PyList []))))
  = (Returned (PyList []),
     mk_state
       ["Successfully loaded 0 cases from ..\cases\case_100.json."]
       [COpen JSON_FILE_PATH; CJsonLoad 0; CFileClose 0]
       (Sim.with_file (Sim.Parses (PyList [])))) /\
  PyList [] <> PyNone /\
  ~ publisher_invoked
      (mk_state
         ["Successfully loaded 0 cases from ..\cases\case_100.json."]
         [COpen JSON_FILE_PATH; CJsonLoad 0; CFileClose 0]
         (Sim.with_file (Sim.Parses (PyList []))))
      (snd (main Sim.lib
              (Sim.start (Sim.with_file (Sim.Parses (PyList [])))))).
Proof.
  split; [reflexivity |]. split; [discriminate |].
  intros [rest H]. vm_compute in H. discriminate H.
Qed.

(** No server answers: the main block still ends with status 0. *)
Lemma main_exits_zero_witness :
  file_library_ok Sim.lib /\
  mongo_library_ok Sim.lib /\
  exit_status
    (fst (main Sim.lib
            (Sim.start (Sim.no_server (Sim.Parses (PyList [Sim.case_1]))))))
  = ExitZero.
Proof.
  split; [exact sim_file_library_ok |].
  split; [exact sim_mongo_library_ok |].
  exact (proj2 (main_exits_zero Sim.lib
                  (Sim.start
                     (Sim.no_server (Sim.Parses (PyList [Sim.case_1]))))
                  sim_file_library_ok sim_mongo_library_ok)).
Defined.

(** The empty array: loaded, and nothing sent to the store. *)
Lemma main_skips_empty_array_witness :
  main Sim.lib (Sim.start (Sim.with_file (Sim.Parses (PyList []))))
  = (Returned tt,
     mk_state
       ["Successfully loaded 0 cases from ..\cases\case_100.json."]
       [COpen JSON_FILE_PATH; CJsonLoad 0; CFileClose 0]
       (Sim.with_file (Sim.Parses (PyList [])))).
Proof.
  destruct (main_skips_empty_array Sim.lib
              (Sim.start (Sim.with_file (Sim.Parses (PyList []))))
              0%nat
              (Sim.with_file (Sim.Parses (PyList [])))
              (Sim.with_file (Sim.Parses (PyList [])))
              (Sim.with_file (Sim.Parses (PyList [])))
              eq_refl eq_refl eq_refl)
    as (s1 & Hs1 & _ & _ & _ & Hmain & _).
  rewrite Hmain, Hs1. reflexivity.
Defined.

(** The site does not answer: [page.goto] raises, the browser is closed. *)
Lemma run_closes_browser_once_entered_witness :
  exists mid,
    calls (snd (run Sim.lib 10 (Sim.start Sim.no_site)))
    = ([CLaunch 10; CNewPage 11] ++ mid ++ [CBrowserClose 11])%list /\
    filter is_browser_close mid = [].
Proof.
  destruct (run_closes_browser_once_entered Sim.lib 10
              (Sim.start Sim.no_site) 11%nat 12%nat Sim.no_site Sim.no_site
              eq_refl eq_refl)
    as (mid & Hcalls & Hnone & _).
  exists mid. split; [exact Hcalls | exact Hnone].
Defined.

(** C8 as stated fails when the page cannot be created: the browser has
    been launched, [run] lets the exception through, and [browser.close()]
    has not been called. *)
Lemma run_new_page_raises_counterexample :
  run Sim.lib 10 (Sim.start Sim.no_pages)
  = (Raised (mk_exn (OtherException "Error")
               "Browser.new_page: Target page, context or browser has been closed"),
     mk_state [] [CLaunch 10; CNewPage 11] Sim.no_pages) /\
  filter is_browser_close
    (calls (snd (run Sim.lib 10 (Sim.start Sim.no_pages)))) = [].
Proof. split; reflexivity. Qed.

(** The site does not answer: the loader and the publisher still swallow
    what they meet, and the probe lets the exception of [page.goto] out. *)
Lemma ingestion_swallows_probe_propagates_witness :
  file_library_ok Sim.lib /\
  mongo_library_ok Sim.lib /\
  run Sim.lib 10 (Sim.start Sim.no_site)
  = (Raised (mk_exn (OtherException "Error")
               "Page.goto: net::ERR_CONNECTION_REFUSED at http://localhost:5173/"),
     mk_state []
       [CLaunch 10; CNewPage 11; CGoto 12 NAVBAR_URL; CBrowserClose 11]
       Sim.no_site).
Proof.
  split; [exact sim_file_library_ok |].
  split; [exact sim_mongo_library_ok |].
  destruct (ingestion_swallows_probe_propagates Sim.lib
              sim_file_library_ok sim_mongo_library_ok)
    as (_ & _ & _ & Hgoto & _).
  apply (Hgoto 10%nat (Sim.start Sim.no_site) 11%nat 12%nat
           (mk_exn (OtherException "Error")
              "Page.goto: net::ERR_CONNECTION_REFUSED at http://localhost:5173/")
           Sim.no_site Sim.no_site Sim.no_site Sim.no_site);
    reflexivity.
Defined.

(** C9 as stated fails in the probe: with a site that does not answer, the
    exception of [page.goto] is not caught, nothing is printed, and the
    script ends with a status other than 0. *)
Lemma verify_navbar_raises_counterexample :
  verify_navbar Sim.lib (Sim.start Sim.no_site)
  = (Raised (mk_exn (OtherException "Error")
               "Page.goto: net::ERR_CONNECTION_REFUSED at http://localhost:5173/"),
     mk_state []
       [CPlaywrightStart; CLaunch 10; CNewPage 11; CGoto 12 NAVBAR_URL;
        CBrowserClose 11; CPlaywrightStop 10]
       Sim.no_site) /\
  stdout (snd (verify_navbar Sim.lib (Sim.start Sim.no_site))) = [] /\
  exit_status (fst (verify_navbar Sim.lib (Sim.start Sim.no_site)))
  = ExitNonZero.
Proof. repeat split. Qed.

(** * Further properties *)

(** ** The loader: the file, the output, what is not caught *)

Section LoaderMore.
Context {W : Type} (L : library W).

(** The library calls of one run of the loader, whatever happens: [open]
    alone when it raises; otherwise [open], [json.load] and the closing of
    that same file, in this order, whether [json.load] returned or raised.
    The file is never left open and the store is never touched. *)
Theorem load_cases_closes_the_file (file_path : string) (s : state W) :
  calls (snd (load_cases_from_json L file_path s))
  = (calls s
     ++ match lib_open L file_path (ext s) with
        | (Returned file, _) =>
            [COpen file_path; CJsonLoad file; CFileClose file]
        | (Raised _, _) => [COpen file_path]
        end)%list.
Proof.
  unfold load_cases_from_json, try_except, load_cases_body, with_, bind,
    try_finally, py_open, json_load, file_close, invoke, eval, print, ret.
  destruct (lib_open L file_path (ext s)) as [[file | e] w1]; cbn.
  2: { now destruct (isinstance_Exception e). }
  destruct (lib_json_load L file w1) as [[v | e] w2]; cbn;
    destruct (lib_file_close L file w2) as [[[] | e'] w3]; cbn;
    try destruct (py_len v) as [n | e'']; cbn;
    repeat match goal with
      | |- context [isinstance_Exception ?x] =>
          destruct (isinstance_Exception x); cbn
      end;
    now rewrite <- !app_assoc.
Qed.

(** What the body of the loader has printed when it ends. *)
Lemma load_cases_body_stdout (file_path : string) (s : state W) r s1 :
  load_cases_body L file_path s = (r, s1) ->
  match r with
  | Returned v =>
      exists n, py_len v = Returned n /\
                stdout s1
                = (stdout s ++ [("Successfully loaded " ++ str_nat n
                                 ++ " cases from " ++ file_path
                                 ++ ".")%string])%list
  | Raised _ => stdout s1 = stdout s
  end.
Proof.
  unfold load_cases_body, with_, bind, try_finally, py_open, json_load,
    file_close, invoke, eval, print, ret.
  destruct (lib_open L file_path (ext s)) as [[file | e] w1]; cbn.
  2: { intros H. now injection H as <- <-. }
  destruct (lib_json_load L file w1) as [[v | e] w2]; cbn;
    destruct (lib_file_close L file w2) as [[[] | e'] w3]; cbn;
    try (intros H; now injection H as <- <-).
  destruct (py_len v) as [n | e''] eqn:En; cbn; intros H; injection H as <- <-.
  - now exists n.
  - reflexivity.
Qed.

(** With a file library that raises only [Exception]s, one call of the
    loader prints exactly one line, and the line tells the result: [None]
    comes with the error line, any other value with the line that gives its
    length. *)
Theorem load_cases_prints_one_line (file_path : string) (s : state W) :
  file_library_ok L ->
  exists v s',
    load_cases_from_json L file_path s = (Returned v, s') /\
    ((v = PyNone /\
      exists e,
        stdout s'
        = (stdout s
           ++ [("Error loading JSON file: " ++ exn_str e)%string])%list) \/
     (exists n,
        py_len v = Returned n /\
        stdout s'
        = (stdout s ++ [("Successfully loaded " ++ str_nat n
                         ++ " cases from " ++ file_path
                         ++ ".")%string])%list)).
Proof.
  intros HL.
  destruct (load_cases_body L file_path s) as [[v | e] s1] eqn:Eb.
  - exists v, s1. split.
    + unfold load_cases_from_json.
      now rewrite (try_except_returned _ _ _ _ _ Eb).
    + right. exact (load_cases_body_stdout _ _ _ _ Eb).
  - exists PyNone. eexists. split.
    + apply load_cases_handles; [exact Eb |].
      exact (load_cases_body_only_Exception L file_path HL _ _ _ Eb).
    + left. split; [reflexivity |]. exists e. cbn.
      now rewrite (load_cases_body_stdout _ _ _ _ Eb).
Qed.

(** An exception that is not an [Exception] (an interrupt from the
    keyboard) is not caught by the loader: it leaves the loader and the
    main block from the state where it was raised, nothing is printed for
    it, the publisher is not reached and the exit status is not 0. *)
Theorem load_cases_lets_interrupt_through (s : state W) e s1 :
  load_cases_body L JSON_FILE_PATH s = (Raised e, s1) ->
  isinstance_Exception e = false ->
  load_cases_from_json L JSON_FILE_PATH s = (Raised e, s1) /\
  stdout s1 = stdout s /\
  main L s = (Raised e, s1) /\
  exit_status (fst (main L s)) = ExitNonZero.
Proof.
  intros Hb He.
  assert (Hl : load_cases_from_json L JSON_FILE_PATH s = (Raised e, s1)).
  { unfold load_cases_from_json. now apply try_except_passed. }
  assert (Hm : main L s = (Raised e, s1)).
  { unfold main. now rewrite (bind_raised _ _ _ _ _ Hl). }
  split; [exact Hl |].
  split; [exact (load_cases_body_stdout _ _ _ _ Hb) |].
  split; [exact Hm |]. now rewrite Hm.
Qed.

End LoaderMore.

(** ** The publisher: its output and its calls *)

Section PublisherMore.
Context {W : Type} (L : library W).


(** Whatever the library does, [insert_many] is called only once the
    client, the database named [db_name] of that client and the collection
    named [collection_name] of that database have been obtained; it is
    called on that collection, with the value the publisher was given,
    unchanged: not filtered, not split, not checked to be a list. *)
Theorem push_cases_inserts_what_it_is_given (cases : pyval)
  (mongo_uri db_name collection_name : string) (s : state W) :
  exists new,
    calls (snd (push_cases_to_mongodb L cases mongo_uri db_name
                  collection_name s))
    = (calls s ++ new)%list /\
    forall collection documents,
      In (CInsertMany collection documents) new ->
      documents = cases /\
      exists client db w1 w2 w3,
        lib_MongoClient L mongo_uri (ext s) = (Returned client, w1) /\
        lib_client_getitem L client db_name w1 = (Returned db, w2) /\
        lib_db_getitem L db collection_name w2 = (Returned collection, w3) /\
        new = [CMongoClient mongo_uri; CClientGetitem client db_name;
               CDbGetitem db collection_name;
               CInsertMany collection cases].
Proof.
  unfold push_cases_to_mongodb, try_except, push_cases_body, bind,
    MongoClient, client_getitem, db_getitem, insert_many, invoke, print, ret.
  destruct (lib_MongoClient L mongo_uri (ext s)) as [[c | e] w1] eqn:E1; cbn.
  2: { exists [CMongoClient mongo_uri].
       split; [now destruct (isinstance_Exception e) |].
       intros k docs [H | []]. discriminate H. }
  destruct (lib_client_getitem L c db_name w1) as [[d | e] w2] eqn:E2; cbn.
  2: { exists [CMongoClient mongo_uri; CClientGetitem c db_name].
       split; [destruct (isinstance_Exception e); cbn;
               now rewrite <- !app_assoc |].
       intros k docs [H | [H | []]]; discriminate H. }
  destruct (lib_db_getitem L d collection_name w2) as [[k | e] w3] eqn:E3; cbn.
  2: { exists [CMongoClient mongo_uri; CClientGetitem c db_name;
               CDbGetitem d collection_name].
       split; [destruct (isinstance_Exception e); cbn;
               now rewrite <- !app_assoc |].
       intros k docs [H | [H | [H | []]]]; discriminate H. }
  exists [CMongoClient mongo_uri; CClientGetitem c db_name;
          CDbGetitem d collection_name; CInsertMany k cases].
  split.
  - destruct (lib_insert_many L k cases w3) as [[r | e] w4]; cbn;
      try destruct (isinstance_Exception e); cbn; now rewrite <- !app_assoc.
  - intros k' docs [H | [H | [H | [H | []]]]]; try discriminate H.
    injection H as <- <-. split; [reflexivity |].
    now exists c, d, w1, w2, w3.
Qed.

(** An interrupt from the keyboard raised inside the publisher is not
    caught either: it leaves the publisher, and the main block that called
    it, with nothing printed for it and an exit status other than 0. *)
Theorem push_cases_lets_interrupt_through (s : state W) v s1 e s2 :
  load_cases_from_json L JSON_FILE_PATH s = (Returned v, s1) ->
  truthy v = true ->
  push_cases_body L v MONGO_URI DB_NAME COLLECTION_NAME s1
  = (Raised e, s2) ->
  isinstance_Exception e = false ->
  push_cases_to_mongodb L v MONGO_URI DB_NAME COLLECTION_NAME s1
  = (Raised e, s2) /\
  main L s = (Raised e, s2) /\
  exit_status (fst (main L s)) = ExitNonZero.
Proof.
  intros Hl Ht Hb He.
  assert (Hp : push_cases_to_mongodb L v MONGO_URI DB_NAME COLLECTION_NAME s1
               = (Raised e, s2)).
  { unfold push_cases_to_mongodb. now apply try_except_passed. }
  assert (Hm : main L s = (Raised e, s2)).
  { rewrite (main_after_load L _ _ _ Hl), Ht.
    now rewrite (bind_raised _ _ _ _ _ Hp). }
  split; [exact Hp |]. split; [exact Hm |]. now rewrite Hm.
Qed.

End PublisherMore.

(** ** The main block: the two functions together *)

(** A value that has a length is true in an [if] exactly when the length is
    not 0. *)
Lemma truthy_iff_len (v : pyval) (n : nat) :
  py_len v = Returned n -> (truthy v = true <-> 0 < n).
Proof.
  destruct v as [ | b | z | f | str | items | items]; simpl;
    try discriminate; intros H; injection H as <-.
  - destruct str; simpl; [split; [discriminate | lia] | split; [lia | auto]].
  - destruct items; simpl; [split; [discriminate | lia] | split; [lia | auto]].
  - destruct items as [ | [k x] items]; simpl.
    + unfold dict_len. simpl. split; [discriminate | lia].
    + split; [intros _ | reflexivity].
      unfold dict_len.
      assert (Hin : In k (nodup string_dec (map fst ((k, x) :: items)))).
      { apply nodup_In. now left. }
      destruct (nodup string_dec (map fst ((k, x) :: items)));
        [destruct Hin | simpl; lia].
Qed.

Section MainMore.
Context {W : Type} (L : library W).

(** Whether the publisher is entered after the loader returned [v]. *)
Lemma publisher_invoked_after_load (s : state W) v s1 :
  load_cases_from_json L JSON_FILE_PATH s = (Returned v, s1) ->
  publisher_invoked s1 (snd (main L s)) <-> truthy v = true.
Proof.
  intros Hl. rewrite (main_after_load L _ _ _ Hl). destruct (truthy v).
  - split; [reflexivity | intros _].
    rewrite snd_discard.
    destruct (push_cases_calls L v MONGO_URI DB_NAME COLLECTION_NAME s1)
      as (rest & Hc & _).
    now exists rest.
  - split; [| discriminate].
    intros [rest Hc]. cbn in Hc. symmetry in Hc.
    now apply app_cons_neq in Hc.
Qed.

(** The count the loader prints decides: when it has loaded a value of
    length [n], the publisher is invoked if and only if [n] is not 0. *)
Theorem main_publishes_iff_count_positive (s : state W) v n s1 :
  load_cases_from_json L JSON_FILE_PATH s = (Returned v, s1) ->
  py_len v = Returned n ->
  publisher_invoked s1 (snd (main L s)) <-> 0 < n.
Proof.
  intros Hl Hn. rewrite (publisher_invoked_after_load _ _ _ Hl).
  exact (truthy_iff_len _ _ Hn).
Qed.

(** When loading fails with an [Exception], the whole script prints the one
    error line, does nothing more (the store is not contacted) and still
    ends with status 0. *)
Theorem main_stops_after_failed_load (s : state W) e s1 :
  load_cases_body L JSON_FILE_PATH s = (Raised e, s1) ->
  isinstance_Exception e = true ->
  main L s
  = (Returned tt, printed ("Error loading JSON file: " ++ exn_str e) s1) /\
  calls (snd (main L s)) = calls s1 /\
  exit_status (fst (main L s)) = ExitZero.
Proof.
  intros Hb He.
  pose proof (load_cases_handles L _ _ _ _ Hb He) as Hl.
  pose proof (main_after_load L _ _ _ Hl) as Hm. cbn [truthy] in Hm.
  split; [exact Hm |]. rewrite Hm. now split.
Qed.

(** Whatever the loader returns that is true in an [if] (a non-empty
    array, but also a non-empty object or string) reaches [insert_many]
    unchanged once the collection has been obtained: the main block checks
    nothing else before inserting, and the world it leaves is the one
    [insert_many] left. *)
Theorem main_inserts_what_was_loaded (s : state W) v s1
  client db collection w1 w2 w3 :
  load_cases_from_json L JSON_FILE_PATH s = (Returned v, s1) ->
  truthy v = true ->
  lib_MongoClient L MONGO_URI (ext s1) = (Returned client, w1) ->
  lib_client_getitem L client DB_NAME w1 = (Returned db, w2) ->
  lib_db_getitem L db COLLECTION_NAME w2 = (Returned collection, w3) ->
  calls (snd (main L s))
  = (calls s1 ++ [CMongoClient MONGO_URI; CClientGetitem client DB_NAME;
                  CDbGetitem db COLLECTION_NAME;
                  CInsertMany collection v])%list /\
  ext (snd (main L s)) = snd (lib_insert_many L collection v w3).
Proof.
  intros Hl Ht Hc Hd Hk.
  rewrite (main_after_load L _ _ _ Hl), Ht, snd_discard.
  unfold push_cases_to_mongodb, try_except, push_cases_body, bind,
    MongoClient, client_getitem, db_getitem, insert_many, invoke, print, ret.
  rewrite Hc. cbn. rewrite Hd. cbn. rewrite Hk. cbn.
  destruct (lib_insert_many L collection v w3) as [[r | e] w4]; cbn;
    try destruct (isinstance_Exception e); cbn;
    now rewrite <- !app_assoc.
Qed.

(** The whole script when everything works: a file that holds a non-empty
    array and a store that accepts it.  Three lines are printed, seven
    library calls are made in the order of the source, and the array goes
    to the store as it was read. *)
Theorem main_loads_then_inserts (s : state W) (record : pyval)
  (records : list pyval) file client db collection
  (result : InsertManyResult) w1 w2 w3 w4 w5 w6 w7 :
  lib_open L JSON_FILE_PATH (ext s) = (Returned file, w1) ->
  lib_json_load L file w1 = (Returned (PyList (record :: records)), w2) ->
  lib_file_close L file w2 = (Returned tt, w3) ->
  lib_MongoClient L MONGO_URI w3 = (Returned client, w4) ->
  lib_client_getitem L client DB_NAME w4 = (Returned db, w5) ->
  lib_db_getitem L db COLLECTION_NAME w5 = (Returned collection, w6) ->
  lib_insert_many L collection (PyList (record :: records)) w6
  = (Returned result, w7) ->
  main L s
  = (Returned tt,
     mk_state
       (stdout s
        ++ [("Successfully loaded " ++ str_nat (S (List.length records))
             ++ " cases from " ++ JSON_FILE_PATH ++ ".")%string;
            "Connected to MongoDB successfully.";
            ("Successfully inserted "
             ++ str_nat (List.length (inserted_ids result))
             ++ " cases into MongoDB.")%string])
       (calls s
        ++ [COpen JSON_FILE_PATH; CJsonLoad file; CFileClose file;
            CMongoClient MONGO_URI; CClientGetitem client DB_NAME;
            CDbGetitem db COLLECTION_NAME;
            CInsertMany collection (PyList (record :: records))])
       w7).
Proof.
  intros Ho Hl Hc Hm Hd Hk Hi.
  pose proof (load_cases_parsed L _ _ _ _ _ _ _ Ho Hl Hc) as Hload.
  cbn [py_len] in Hload.
  rewrite (main_after_load L _ _ _ Hload). cbn [truthy List.length Nat.eqb negb].
  unfold push_cases_to_mongodb, try_except, push_cases_body, bind,
    MongoClient, client_getitem, db_getitem, insert_many, invoke, print, ret,
    printed, after_read.
  cbn. rewrite Hm. cbn. rewrite Hd. cbn. rewrite Hk. cbn. rewrite Hi. cbn.
  now rewrite <- !app_assoc.
Qed.

End MainMore.

(** ** The browser probe: order, cleanup and what is lost *)

Section ProbeMore.
Context {W : Type} (L : library W).

(** When everything works [run] returns [None] after exactly five calls, in
    the order of the source: launch, new page, goto, screenshot, close. *)
Theorem run_takes_the_screenshot (playwright : handle) (s : state W)
  browser page w1 w2 w3 w4 w5 :
  lib_launch L playwright (ext s) = (Returned browser, w1) ->
  lib_new_page L browser w1 = (Returned page, w2) ->
  lib_goto L page NAVBAR_URL w2 = (Returned tt, w3) ->
  lib_screenshot L page SCREENSHOT_PATH w3 = (Returned tt, w4) ->
  lib_browser_close L browser w4 = (Returned tt, w5) ->
  run L playwright s
  = (Returned PyNone,
     mk_state (stdout s)
       (calls s ++ [CLaunch playwright; CNewPage browser;
                    CGoto page NAVBAR_URL; CScreenshot page SCREENSHOT_PATH;
                    CBrowserClose browser]) w5).
Proof.
  intros Hl Hn Hg Hs Hc.
  unfold run, bind, try_finally, chromium_launch, new_page, page_goto,
    page_screenshot, browser_close, invoke, ret.
  rewrite Hl. cbn. rewrite Hn. cbn. rewrite Hg. cbn. rewrite Hs. cbn.
  rewrite Hc. cbn. now rewrite <- !app_assoc.
Qed.

(** An exception of [launch] or of [new_page] leaves [run] at once: these
    two calls are before the [try], so nothing after them is called, and in
    particular a browser that was launched is not closed. *)
Theorem run_fails_before_the_try (playwright : handle) (s : state W) :
  (forall e w1,
     lib_launch L playwright (ext s) = (Raised e, w1) ->
     run L playwright s
     = (Raised e,
        mk_state (stdout s) (calls s ++ [CLaunch playwright]) w1)) /\
  (forall browser e w1 w2,
     lib_launch L playwright (ext s) = (Returned browser, w1) ->
     lib_new_page L browser w1 = (Raised e, w2) ->
     run L playwright s
     = (Raised e,
        mk_state (stdout s)
          (calls s ++ [CLaunch playwright; CNewPage browser]) w2)).
Proof.
  split.
  - intros e w1 Hl.
    unfold run, bind, chromium_launch, invoke. now rewrite Hl.
  - intros browser e w1 w2 Hl Hn.
    unfold run, bind, chromium_launch, new_page, invoke.
    rewrite Hl. cbn. rewrite Hn. cbn. now rewrite <- !app_assoc.
Qed.

(** When [page.goto] raises and [browser.close()] raises too, the exception
    that leaves [run] is the one of [close]: the error of the navigation is
    replaced by the error of the cleanup. *)
Theorem run_close_error_replaces_goto_error (playwright : handle)
  (s : state W) browser page e_goto e_close w1 w2 w3 w4 :
  lib_launch L playwright (ext s) = (Returned browser, w1) ->
  lib_new_page L browser w1 = (Returned page, w2) ->
  lib_goto L page NAVBAR_URL w2 = (Raised e_goto, w3) ->
  lib_browser_close L browser w3 = (Raised e_close, w4) ->
  run L playwright s
  = (Raised e_close,
     mk_state (stdout s)
       (calls s ++ [CLaunch playwright; CNewPage browser;
                    CGoto page NAVBAR_URL; CBrowserClose browser]) w4).
Proof.
  intros Hl Hn Hg Hc.
  unfold run, bind, try_finally, chromium_launch, new_page, page_goto,
    page_screenshot, browser_close, invoke.
  rewrite Hl. cbn. rewrite Hn. cbn. rewrite Hg. cbn. rewrite Hc.
  now rewrite <- !app_assoc.
Qed.

(** Once playwright has been started, it is stopped however [run] ends:
    the stop is the one call the module body adds after those of [run]. *)
Theorem verify_navbar_stops_playwright (s : state W) playwright w0 :
  lib_playwright_start L (ext s) = (Returned playwright, w0) ->
  calls (snd (verify_navbar L s))
  = (calls (snd (run L playwright
                   (mk_state (stdout s) (calls s ++ [CPlaywrightStart]) w0)))
     ++ [CPlaywrightStop playwright])%list.
Proof.
  intros Hs.
  unfold verify_navbar, with_, bind, try_finally, sync_playwright_enter,
    sync_playwright_exit, invoke.
  rewrite Hs. cbn.
  destruct (run L playwright _) as [r s1]. cbn.
  now destruct (lib_playwright_stop L playwright (ext s1)) as [[[] | e] w9].
Qed.

(** The probe never prints: whatever the library does, standard output
    after the script is what it was before.  A failure shows only in the
    exception that reaches the top level. *)
Theorem verify_navbar_never_prints (s : state W) :
  stdout (snd (verify_navbar L s)) = stdout s.
Proof.
  unfold verify_navbar, with_, run, bind, try_finally, sync_playwright_enter,
    sync_playwright_exit, chromium_launch, new_page, page_goto,
    page_screenshot, browser_close, invoke, ret.
  destruct (lib_playwright_start L (ext s)) as [[pw | e] w0]; cbn;
    [| reflexivity].
  destruct (lib_launch L pw w0) as [[b | e] w1]; cbn.
  2: { now destruct (lib_playwright_stop L pw w1) as [[[] | e'] w9]. }
  destruct (lib_new_page L b w1) as [[p | e] w2]; cbn.
  2: { now destruct (lib_playwright_stop L pw w2) as [[[] | e'] w9]. }
  destruct (lib_goto L p NAVBAR_URL w2) as [[[] | e] w3]; cbn.
  - destruct (lib_screenshot L p SCREENSHOT_PATH w3) as [[[] | e] w4]; cbn;
      destruct (lib_browser_close L b w4) as [[[] | e'] w5]; cbn;
      now destruct (lib_playwright_stop L pw w5) as [[[] | e''] w9].
  - destruct (lib_browser_close L b w3) as [[[] | e'] w4]; cbn;
      now destruct (lib_playwright_stop L pw w4) as [[[] | e''] w9].
Qed.

(** The probe hides no failure: the script ends with status 0 if and only
    if every one of its seven library calls returned. *)
Theorem verify_navbar_exits_zero_iff_all_return (s : state W) :
  exit_status (fst (verify_navbar L s)) = ExitZero <->
  exists playwright browser page w0 w1 w2 w3 w4 w5 w6,
    lib_playwright_start L (ext s) = (Returned playwright, w0) /\
    lib_launch L playwright w0 = (Returned browser, w1) /\
    lib_new_page L browser w1 = (Returned page, w2) /\
    lib_goto L page NAVBAR_URL w2 = (Returned tt, w3) /\
    lib_screenshot L page SCREENSHOT_PATH w3 = (Returned tt, w4) /\
    lib_browser_close L browser w4 = (Returned tt, w5) /\
    lib_playwright_stop L playwright w5 = (Returned tt, w6).
Proof.
  unfold verify_navbar, with_, run, bind, try_finally, sync_playwright_enter,
    sync_playwright_exit, chromium_launch, new_page, page_goto,
    page_screenshot, browser_close, invoke, ret.
  split.
  - destruct (lib_playwright_start L (ext s)) as [[pw | e] w0]; cbn;
      [| discriminate].
    destruct (lib_launch L pw w0) as [[b | e] w1] eqn:El; cbn.
    2: { now destruct (lib_playwright_stop L pw w1) as [[[] | e'] w9]. }
    destruct (lib_new_page L b w1) as [[p | e] w2] eqn:En; cbn.
    2: { now destruct (lib_playwright_stop L pw w2) as [[[] | e'] w9]. }
    destruct (lib_goto L p NAVBAR_URL w2) as [[[] | e] w3] eqn:Eg; cbn.
    2: { destruct (lib_browser_close L b w3) as [[[] | e'] w4]; cbn;
           now destruct (lib_playwright_stop L pw w4) as [[[] | e''] w9]. }
    destruct (lib_screenshot L p SCREENSHOT_PATH w3) as [[[] | e] w4] eqn:Es;
      cbn.
    2: { destruct (lib_browser_close L b w4) as [[[] | e'] w5]; cbn;
           now destruct (lib_playwright_stop L pw w5) as [[[] | e''] w9]. }
    destruct (lib_browser_close L b w4) as [[[] | e'] w5] eqn:Ec; cbn.
    2: { now destruct (lib_playwright_stop L pw w5) as [[[] | e''] w9]. }
    destruct (lib_playwright_stop L pw w5) as [[[] | e''] w6] eqn:Ep; cbn;
      [| discriminate].
    intros _. now exists pw, b, p, w0, w1, w2, w3, w4, w5, w6.
  - intros (pw & b & p & w0 & w1 & w2 & w3 & w4 & w5 & w6
            & Hs & Hl & Hn & Hg & Hsc & Hc & Hp).
    rewrite Hs. cbn. rewrite Hl. cbn. rewrite Hn. cbn. rewrite Hg. cbn.
    rewrite Hsc. cbn. rewrite Hc. cbn. now rewrite Hp.
Qed.

End ProbeMore.

(** ** The further properties on the simulated world *)

(** A file that is not JSON: one line, the error, and [None]. *)
Lemma load_cases_prints_one_line_witness :
  file_library_ok Sim.lib /\
  exists v s',
    load_cases_from_json Sim.lib JSON_FILE_PATH
      (Sim.start
         (Sim.with_file
            (Sim.Malformed "Expecting value: line 1 column 1 (char 0)")))
    = (Returned v, s') /\
    ((v = PyNone /\
      exists e,
        stdout s' = [("Error loading JSON file: " ++ exn_str e)%string]) \/
     (exists n,
        py_len v = Returned n /\
        stdout s'
        = [("Successfully loaded " ++ str_nat n ++ " cases from "
            ++ JSON_FILE_PATH ++ ".")%string])).
Proof.
  split; [exact sim_file_library_ok |].
  exact (load_cases_prints_one_line Sim.lib JSON_FILE_PATH
           (Sim.start
              (Sim.with_file
                 (Sim.Malformed "Expecting value: line 1 column 1 (char 0)")))
           sim_file_library_ok).
Defined.

(** An interrupt while the file is opened ends the script. *)
Lemma load_cases_lets_interrupt_through_witness :
  isinstance_Exception SimFaults.interrupt = false /\
  main SimFaults.interrupted_open (Sim.start Sim.no_file)
  = (Raised SimFaults.interrupt,
     mk_state [] [COpen JSON_FILE_PATH] Sim.no_file).
Proof.
  split; [reflexivity |].
  destruct (load_cases_lets_interrupt_through SimFaults.interrupted_open
              (Sim.start Sim.no_file) SimFaults.interrupt
              (mk_state [] [COpen JSON_FILE_PATH] Sim.no_file)
              eq_refl eq_refl)
    as (_ & _ & Hmain & _).
  exact Hmain.
Defined.


(** The one [insert_many] call of a run on two records carries both. *)
Lemma push_cases_inserts_what_it_is_given_witness :
  exists new,
    calls (snd (push_cases_to_mongodb Sim.lib
                  (PyList [Sim.case_1; Sim.case_2]) MONGO_URI DB_NAME
                  COLLECTION_NAME (Sim.start Sim.no_file)))
    = new /\
    forall collection documents,
      In (CInsertMany collection documents) new ->
      documents = PyList [Sim.case_1; Sim.case_2].
Proof.
  destruct (push_cases_inserts_what_it_is_given Sim.lib
              (PyList [Sim.case_1; Sim.case_2]) MONGO_URI DB_NAME
              COLLECTION_NAME (Sim.start Sim.no_file))
    as (new & Hcalls & Hin).
  exists new. split; [exact Hcalls |].
  intros k docs H. exact (proj1 (Hin k docs H)).
Defined.

(** An interrupt while the records are inserted ends the script. *)
Lemma push_cases_lets_interrupt_through_witness :
  main SimFaults.interrupted_insert
    (Sim.start (Sim.with_file (Sim.Parses (PyList [Sim.case_1]))))
  = (Raised SimFaults.interrupt,
     mk_state
       ["Successfully loaded 1 cases from ..\cases\case_100.json.";
        "Connected to MongoDB successfully."]
       [COpen JSON_FILE_PATH; CJsonLoad 0; CFileClose 0;
        CMongoClient MONGO_URI; CClientGetitem 1 DB_NAME;
        CDbGetitem 2 COLLECTION_NAME; CInsertMany 3 (PyList [Sim.case_1])]
       (Sim.with_file (Sim.Parses (PyList [Sim.case_1])))).
Proof.
  destruct (push_cases_lets_interrupt_through SimFaults.interrupted_insert
              (Sim.start (Sim.with_file (Sim.Parses (PyList [Sim.case_1]))))
              (PyList [Sim.case_1])
              (mk_state
                 ["Successfully loaded 1 cases from ..\cases\case_100.json."]
                 [COpen JSON_FILE_PATH; CJsonLoad 0; CFileClose 0]
                 (Sim.with_file (Sim.Parses (PyList [Sim.case_1]))))
              SimFaults.interrupt
              (mk_state
                 ["Successfully loaded 1 cases from ..\cases\case_100.json.";
                  "Connected to MongoDB successfully."]
                 [COpen JSON_FILE_PATH; CJsonLoad 0; CFileClose 0;
                  CMongoClient MONGO_URI; CClientGetitem 1 DB_NAME;
                  CDbGetitem 2 COLLECTION_NAME;
                  CInsertMany 3 (PyList [Sim.case_1])]
                 (Sim.with_file (Sim.Parses (PyList [Sim.case_1]))))
              eq_refl eq_refl eq_refl eq_refl)
    as (_ & Hmain & _).
  exact Hmain.
Defined.

(** An empty string in the file: length 0, not published. *)
Lemma main_publishes_iff_count_positive_witness :
  py_len (PyStr "") = Returned 0 /\
  ~ publisher_invoked
      (mk_state
         ["Successfully loaded 0 cases from ..\cases\case_100.json."]
         [COpen JSON_FILE_PATH; CJsonLoad 0; CFileClose 0]
         (Sim.with_file (Sim.Parses (PyStr ""))))
      (snd (main Sim.lib
              (Sim.start (Sim.with_file (Sim.Parses (PyStr "")))))).
Proof.
  split; [reflexivity |]. intros H.
  apply (main_publishes_iff_count_positive Sim.lib
           (Sim.start (Sim.with_file (Sim.Parses (PyStr ""))))
           (PyStr "") 0
           (mk_state
              ["Successfully loaded 0 cases from ..\cases\case_100.json."]
              [COpen JSON_FILE_PATH; CJsonLoad 0; CFileClose 0]
              (Sim.with_file (Sim.Parses (PyStr ""))))
           eq_refl eq_refl) in H.
  exact (Nat.lt_irrefl 0 H).
Defined.

(** A missing file: one line, one call, status 0. *)
Lemma main_stops_after_failed_load_witness :
  main Sim.lib (Sim.start Sim.no_file)
  = (Returned tt,
     mk_state
       ["Error loading JSON file: [Errno 2] No such file or directory: '..\cases\case_100.json'"]
       [COpen JSON_FILE_PATH] Sim.no_file).
Proof.
  exact (proj1 (main_stops_after_failed_load Sim.lib (Sim.start Sim.no_file)
                  (mk_exn FileNotFoundError
                     "[Errno 2] No such file or directory: '..\cases\case_100.json'")
                  (mk_state [] [COpen JSON_FILE_PATH] Sim.no_file)
                  eq_refl eq_refl)).
Defined.

(** A file that holds one object, not an array: the object itself is what
    [insert_many] is called with. *)
Lemma main_inserts_what_was_loaded_witness :
  truthy Sim.case_1 = true /\
  calls (snd (main Sim.lib
                (Sim.start (Sim.with_file (Sim.Parses Sim.case_1)))))
  = [COpen JSON_FILE_PATH; CJsonLoad 0; CFileClose 0;
     CMongoClient MONGO_URI; CClientGetitem 1 DB_NAME;
     CDbGetitem 2 COLLECTION_NAME; CInsertMany 3 Sim.case_1].
Proof.
  split; [reflexivity |].
  exact (proj1 (main_inserts_what_was_loaded Sim.lib
                  (Sim.start (Sim.with_file (Sim.Parses Sim.case_1)))
                  Sim.case_1
                  (mk_state
                     ["Successfully loaded 2 cases from ..\cases\case_100.json."]
                     [COpen JSON_FILE_PATH; CJsonLoad 0; CFileClose 0]
                     (Sim.with_file (Sim.Parses Sim.case_1)))
                  1%nat 2%nat 3%nat
                  (Sim.with_file (Sim.Parses Sim.case_1))
                  (Sim.with_file (Sim.Parses Sim.case_1))
                  (Sim.with_file (Sim.Parses Sim.case_1))
                  eq_refl eq_refl eq_refl eq_refl eq_refl)).
Defined.

(** Two records, a store that answers: loaded, connected, inserted. *)
Lemma main_loads_then_inserts_witness :
  main Sim.lib
    (Sim.start (Sim.with_file (Sim.Parses (PyList [Sim.case_1; Sim.case_2]))))
  = (Returned tt,
     mk_state
       ["Successfully loaded 2 cases from ..\cases\case_100.json.";
        "Connected to MongoDB successfully.";
        "Successfully inserted 2 cases into MongoDB."]
       [COpen JSON_FILE_PATH; CJsonLoad 0; CFileClose 0;
        CMongoClient MONGO_URI; CClientGetitem 1 DB_NAME;
        CDbGetitem 2 COLLECTION_NAME;
        CInsertMany 3 (PyList [Sim.case_1; Sim.case_2])]
       (Sim.mk_world
          [(JSON_FILE_PATH, Sim.Parses (PyList [Sim.case_1; Sim.case_2]))]
          (Some [Sim.case_1; Sim.case_2]) 3 true true)).
Proof.
  exact (main_loads_then_inserts Sim.lib
           (Sim.start
              (Sim.with_file (Sim.Parses (PyList [Sim.case_1; Sim.case_2]))))
           Sim.case_1 [Sim.case_2] 0%nat 1%nat 2%nat 3%nat
           (mk_InsertManyResult [PyInt 1; PyInt 2] true)
           (Sim.with_file (Sim.Parses (PyList [Sim.case_1; Sim.case_2])))
           (Sim.with_file (Sim.Parses (PyList [Sim.case_1; Sim.case_2])))
           (Sim.with_file (Sim.Parses (PyList [Sim.case_1; Sim.case_2])))
           (Sim.with_file (Sim.Parses (PyList [Sim.case_1; Sim.case_2])))
           (Sim.with_file (Sim.Parses (PyList [Sim.case_1; Sim.case_2])))
           (Sim.with_file (Sim.Parses (PyList [Sim.case_1; Sim.case_2])))
           (Sim.mk_world
              [(JSON_FILE_PATH, Sim.Parses (PyList [Sim.case_1; Sim.case_2]))]
              (Some [Sim.case_1; Sim.case_2]) 3 true true)
           eq_refl eq_refl eq_refl eq_refl eq_refl eq_refl eq_refl).
Defined.

(** A site that answers: five calls, [None]. *)
Lemma run_takes_the_screenshot_witness :
  run Sim.lib 10 (Sim.start Sim.no_file)
  = (Returned PyNone,
     mk_state []
       [CLaunch 10; CNewPage 11; CGoto 12 NAVBAR_URL;
        CScreenshot 12 SCREENSHOT_PATH; CBrowserClose 11]
       Sim.no_file).
Proof.
  exact (run_takes_the_screenshot Sim.lib 10 (Sim.start Sim.no_file)
           11%nat 12%nat Sim.no_file Sim.no_file Sim.no_file Sim.no_file
           Sim.no_file eq_refl eq_refl eq_refl eq_refl eq_refl).
Defined.

(** No page can be created: two calls, and the browser stays open. *)
Lemma run_fails_before_the_try_witness :
  run Sim.lib 10 (Sim.start Sim.no_pages)
  = (Raised (mk_exn (OtherException "Error")
               "Browser.new_page: Target page, context or browser has been closed"),
     mk_state [] [CLaunch 10; CNewPage 11] Sim.no_pages).
Proof.
  exact (proj2 (run_fails_before_the_try Sim.lib 10 (Sim.start Sim.no_pages))
           11%nat
           (mk_exn (OtherException "Error")
              "Browser.new_page: Target page, context or browser has been closed")
           Sim.no_pages Sim.no_pages eq_refl eq_refl).
Defined.

(** The site does not answer and the browser cannot be closed: the error
    that comes out is the one of the browser. *)
Lemma run_close_error_replaces_goto_error_witness :
  run SimFaults.failing_close 10 (Sim.start Sim.no_site)
  = (Raised SimFaults.close_error,
     mk_state []
       [CLaunch 10; CNewPage 11; CGoto 12 NAVBAR_URL; CBrowserClose 11]
       Sim.no_site).
Proof.
  exact (run_close_error_replaces_goto_error SimFaults.failing_close 10
           (Sim.start Sim.no_site) 11%nat 12%nat
           (mk_exn (OtherException "Error")
              "Page.goto: net::ERR_CONNECTION_REFUSED at http://localhost:5173/")
           SimFaults.close_error
           Sim.no_site Sim.no_site Sim.no_site Sim.no_site
           eq_refl eq_refl eq_refl eq_refl).
Defined.

(** The site does not answer: playwright is stopped after the failed run. *)
Lemma verify_navbar_stops_playwright_witness :
  calls (snd (verify_navbar Sim.lib (Sim.start Sim.no_site)))
  = [CPlaywrightStart; CLaunch 10; CNewPage 11; CGoto 12 NAVBAR_URL;
     CBrowserClose 11; CPlaywrightStop 10].
Proof.
  exact (verify_navbar_stops_playwright Sim.lib (Sim.start Sim.no_site)
           10%nat Sim.no_site eq_refl).
Defined.

(** A site that answers: status 0; a site that does not: another status. *)
Lemma verify_navbar_exits_zero_iff_all_return_witness :
  exit_status (fst (verify_navbar Sim.lib (Sim.start Sim.no_file))) = ExitZero /\
  exit_status (fst (verify_navbar Sim.lib (Sim.start Sim.no_site)))
  <> ExitZero.
Proof.
  split.
  - apply (proj2 (verify_navbar_exits_zero_iff_all_return Sim.lib
                    (Sim.start Sim.no_file))).
    exists 10%nat, 11%nat, 12%nat, Sim.no_file, Sim.no_file, Sim.no_file,
      Sim.no_file, Sim.no_file, Sim.no_file, Sim.no_file.
    repeat split.
  - intros H.
    apply (proj1 (verify_navbar_exits_zero_iff_all_return Sim.lib
                    (Sim.start Sim.no_site))) in H.
    destruct H as (pw & b & p & w0 & w1 & w2 & w3 & w4 & w5 & w6
                   & Hs & Hl & Hn & Hg & _).
    injection Hs as <- <-. injection Hl as <- <-. injection Hn as <- <-.
    discriminate Hg.
Defined.
